(** * eda_cli.api: the dataset-quality HTTP service, embedded in Rocq

    The module [src/homeworks/HW04/eda-cli/src/eda_cli/api.py] defines three
    FastAPI handlers ([quality], [quality_from_csv], [quality_flags_from_csv]),
    the telemetry helper [log_request] and the [JSONFormatter] of the
    structured log.  The handlers are embedded as programs of a small
    state-and-exception monad over a [world] that holds what the Python code
    reaches through globals: the monotonic clock behind [perf_counter], the
    [request_id_var] context variable, and the journal of observable events
    (calls of [pd.read_csv], records handed to [api_logger]).

    Python [float] is IEEE-754 binary64 and is embedded as Rocq's primitive
    [float], whose operations compute in the kernel and are specified by
    [SpecFloat] through the axioms of [FloatAxioms]; Python [int] is [Z];
    [dict] with string keys is [gmap string _]; a dynamically typed value is
    the tagged type [value].

    The file has three parts: the embedding of [api.py]; the specification's
    wording and the vocabulary of the statements; and the proofs, which open
    with the arithmetic of binary64 subtraction that the score needs. *)

From Stdlib Require Import ZArith Floats String Lia.
From stdpp Require Import base option gmap strings fin_maps.

Set Warnings "-inexact-float".

(** ** Python values and built-ins *)

(** A dynamically typed Python scalar, by its run-time type.  [VBool] is the
    only tag for which [isinstance(v, bool)] holds. *)
Inductive value : Type :=
  | VNone
  | VBool (b : bool)
  | VInt (z : Z)
  | VFloat (f : float)
  | VStr (s : string).

(** [isinstance(v, bool)] *)
Definition isinstance_bool (v : value) : bool :=
  match v with VBool _ => true | _ => false end.

(** [v is not None] *)
Definition is_not_None (v : value) : bool :=
  match v with VNone => false | _ => true end.

(** [min(a, b)] on floats: CPython keeps the first argument unless the second
    compares strictly below it. *)
Definition py_min (a b : float) : float := if (b <? a)%float then b else a.

(** [max(a, b)] on floats: CPython keeps the first argument unless the second
    compares strictly above it. *)
Definition py_max (a b : float) : float := if (a <? b)%float then b else a.

(** ** Request and response models (pydantic [BaseModel]s) *)

Module QualityRequest.
Record t : Type := mk {
  n_rows : Z;
  n_cols : Z;
  max_missing_share : float;
  numeric_cols : Z;
  categorical_cols : Z }.
End QualityRequest.

Module QualityResponse.
Record t : Type := mk {
  ok_for_model : bool;
  quality_score : float;
  message : string;
  latency_ms : float;
  flags : option (gmap string bool);
  dataset_shape : option (gmap string Z) }.
End QualityResponse.

Module QualityFlagsResponse.
Record t : Type := mk { flags : gmap string bool }.
End QualityFlagsResponse.

(** The body of an upload: [file.content_type] may be [None]. *)
Module UploadFile.
Record t : Type := mk {
  content_type : option string;
  file : string }.
End UploadFile.

(** ** Exceptions, the world, and the handler monad *)

Inductive exn : Type :=
  | HTTPException (status_code : Z) (detail : string)
  | AttributeError (name : string)
  | TypeError
  | ValueError
  | OverflowError
  | Exception (msg : string).

(** [str(exc)].  Inside the [try] blocks of the handlers only pandas raises,
    so only the [Exception] case is ever formatted. *)
Definition exn_str (e : exn) : string :=
  match e with
  | HTTPException c d => d
  | AttributeError n => "object has no attribute '" ++ n ++ "'"
  | TypeError => "TypeError"
  | ValueError => "ValueError"
  | OverflowError => "OverflowError"
  | Exception msg => msg
  end.

(** The attributes [log_request] sets on a [logging.LogRecord]. *)
Record LogRecord : Type := {
  rec_endpoint : string;
  rec_status : string;
  rec_latency_ms : float;
  rec_ok_for_model : option bool;
  rec_n_rows : option Z;
  rec_n_cols : option Z;
  rec_request_id : string }.

Inductive event : Type :=
  | ReadCsv (file : string)      (* a call [pd.read_csv(file.file)] *)
  | Logged (r : LogRecord).      (* a call [api_logger.handle(r)] *)

Record world : Type := {
  clock : nat -> float;          (* successive readings of [perf_counter()] *)
  ticks : nat;                   (* readings taken so far *)
  request_id_var : string;       (* value of the context variable *)
  journal : list event }.        (* observable events, oldest first *)

Inductive outcome (A : Type) : Type :=
  | Return (a : A)
  | Raise (e : exn).
Arguments Return {A} a.
Arguments Raise {A} e.

Definition M (A : Type) : Type := world -> outcome A * world.

#[global] Instance M_ret : MRet M := fun A a w => (Return a, w).
#[global] Instance M_bind : MBind M := fun A B f m w =>
  match m w with
  | (Return a, w') => f a w'
  | (Raise e, w') => (Raise e, w')
  end.

Definition raise {A : Type} (e : exn) : M A := fun w => (Raise e, w).

(** A computation that only returns or raises. *)
Definition lift {A : Type} (o : outcome A) : M A := fun w => (o, w).

(** [try: body except ...: handler] -- effects of [body] up to the raise stay. *)
Definition try_except {A : Type} (body : M A) (handler : exn -> M A) : M A :=
  fun w =>
    match body w with
    | (Return a, w') => (Return a, w')
    | (Raise e, w') => handler e w'
    end.

(** [if c: body] as a statement. *)
Definition when (c : bool) (body : M unit) : M unit :=
  if c then body else mret tt.

(** The world after one more clock reading, and after one more event. *)
Definition tick (w : world) : world :=
  {| clock := clock w; ticks := S (ticks w);
     request_id_var := request_id_var w; journal := journal w |}.

Definition record_event (ev : event) (w : world) : world :=
  {| clock := clock w; ticks := ticks w;
     request_id_var := request_id_var w; journal := journal w ++ [ev] |}.

(** [perf_counter()] *)
Definition perf_counter : M float := fun w =>
  (Return (clock w (ticks w)), tick w).

(** One observable event. *)
Definition emit (ev : event) : M unit := fun w =>
  (Return tt, record_event ev w).

(** The log records, and the parsed files, among a list of events. *)
Definition logged (evs : list event) : list LogRecord :=
  omap (fun ev => match ev with Logged r => Some r | _ => None end) evs.

Definition csv_reads (evs : list event) : list string :=
  omap (fun ev => match ev with ReadCsv f => Some f | _ => None end) evs.

(** ** Structured logging: [log_request] and [JSONFormatter.format] *)

(** [log_request], lines 180-207: reads [request_id_var], fills the record and
    hands it to [api_logger]. *)
Definition log_request (endpoint status : string) (latency_ms : float)
    (ok_for_model : option bool) (n_rows n_cols : option Z) : M unit :=
  fun w =>
    let request_id := request_id_var w in
    emit (Logged {| rec_endpoint := endpoint;
                    rec_status := status;
                    rec_latency_ms := latency_ms;
                    rec_ok_for_model := ok_for_model;
                    rec_n_rows := n_rows;
                    rec_n_cols := n_cols;
                    rec_request_id := request_id |}) w.

Definition opt_value {A : Type} (inj : A -> value) (o : option A) : value :=
  match o with Some a => inj a | None => VNone end.

(** [JSONFormatter.format], lines 48-61: the dictionary handed to
    [json.dumps]; [utcnow] is [datetime.utcnow().isoformat()].  Every record
    comes from [log_request], which sets all seven attributes, so the
    [getattr] defaults are never used. *)
Definition JSONFormatter_format (record : LogRecord) (utcnow : string)
    : gmap string value :=
  let log_data : gmap string value :=
    <["request_id" := VStr (rec_request_id record)]>
    (<["timestamp" := VStr (utcnow ++ "Z")]>
    (<["n_cols" := opt_value VInt (rec_n_cols record)]>
    (<["n_rows" := opt_value VInt (rec_n_rows record)]>
    (<["ok_for_model" := opt_value VBool (rec_ok_for_model record)]>
    (<["latency_ms" := VFloat (rec_latency_ms record)]>
    (<["status" := VStr (rec_status record)]>
    (<["endpoint" := VStr (rec_endpoint record)]> ∅))))))) in
  filter (fun kv => is_not_None kv.2) log_data.

(** ** [POST /quality], lines 226-293 *)

Definition msg_quality_ok : string :=
  "Данных достаточно, модель можно обучать (по текущим эвристикам).".
Definition msg_quality_bad : string :=
  "Качество данных недостаточно, требуется доработка (по текущим эвристикам).".

Definition quality (req : QualityRequest.t) : M QualityResponse.t :=
  let n_rows := QualityRequest.n_rows req in
  let n_cols := QualityRequest.n_cols req in
  let max_missing_share := QualityRequest.max_missing_share req in
  let numeric_cols := QualityRequest.numeric_cols req in
  let categorical_cols := QualityRequest.categorical_cols req in
  start ← perf_counter;
  let score := 1.0%float in
  let score := (score - max_missing_share)%float in
  let score := if (n_rows <? 1000)%Z then (score - 0.2)%float else score in
  let score := if (n_cols >? 100)%Z then (score - 0.1)%float else score in
  let score :=
    if (numeric_cols =? 0)%Z && (categorical_cols >? 0)%Z
    then (score - 0.1)%float else score in
  let score :=
    if (categorical_cols =? 0)%Z && (numeric_cols >? 0)%Z
    then (score - 0.05)%float else score in
  let score := py_max 0.0 (py_min 1.0 score) in
  let ok_for_model := (0.7 <=? score)%float in
  let message := if ok_for_model then msg_quality_ok else msg_quality_bad in
  now ← perf_counter;
  let latency_ms := ((now - start) * 1000.0)%float in
  let flags : gmap string bool :=
    <["no_categorical_columns" := (categorical_cols =? 0)%Z]>
    (<["no_numeric_columns" := (numeric_cols =? 0)%Z]>
    (<["too_many_missing" := (0.5 <? max_missing_share)%float]>
    (<["too_many_columns" := (n_cols >? 100)%Z]>
    (<["too_few_rows" := (n_rows <? 1000)%Z]> ∅)))) in
  log_request "/quality" "success" latency_ms
    (Some ok_for_model) (Some n_rows) (Some n_cols);;
  mret (QualityResponse.mk ok_for_model score message latency_ms (Some flags)
          (Some (<["n_cols" := n_cols]> (<["n_rows" := n_rows]> ∅)))).

(** ** The EDA core and pandas, as used by the CSV handlers

    [eda_cli.core] ([summarize_dataset], [missing_table],
    [compute_quality_flags]) and [pandas] are outside this module; the
    handlers are parametric in them.  [read_csv] answers [inl msg] when
    pandas raises an exception whose [str()] is [msg]. *)
Class Core : Type := {
  DataFrame : Type;
  DatasetSummary : Type;
  MissingTable : Type;
  shape : DataFrame -> Z * Z;
  read_csv : string -> string + DataFrame;
  summarize_dataset : DataFrame -> DatasetSummary;
  missing_table : DataFrame -> MissingTable;
  compute_quality_flags :
    DatasetSummary -> MissingTable -> DataFrame -> gmap string value;
  (* the attributes [n_rows] / [n_cols] of a summary object, when it has them *)
  summary_n_rows : DatasetSummary -> option Z;
  summary_n_cols : DatasetSummary -> option Z;
  (* [float(s)] on a [str], when the text parses *)
  float_of_str : string -> option float }.

(** [float(n)] on an [int]: the nearest binary64, [OverflowError] when the
    integer is too large. *)
Definition float_of_int (n : Z) : outcome float :=
  let f := SF2Prim (binary_normalize prec emax n 0 false) in
  if is_infinity f then Raise OverflowError else Return f.

Section CsvHandlers.
Context `{Core}.

(** [float(v)] *)
Definition py_float (v : value) : outcome float :=
  match v with
  | VNone => Raise TypeError
  | VBool b => Return (if b then 1.0 else 0.0)%float
  | VInt n => float_of_int n
  | VFloat f => Return f
  | VStr s =>
      match float_of_str s with
      | Some f => Return f
      | None => Raise ValueError
      end
  end.

(** [getattr(obj, name)] on an attribute that may be missing. *)
Definition getattr {A : Type} (attr : option A) (name : string) : M A :=
  match attr with
  | Some a => mret a
  | None => raise (AttributeError name)
  end.

(** [pd.read_csv(file.file)] *)
Definition pd_read_csv (file : string) : M DataFrame :=
  emit (ReadCsv file);;
  match read_csv file with
  | inr df => mret df
  | inl msg => raise (Exception msg)
  end.

(** [df.empty]: pandas answers [True] when any axis has length 0. *)
Definition DataFrame_empty (df : DataFrame) : bool :=
  ((shape df).1 =? 0)%Z || ((shape df).2 =? 0)%Z.

(** The tuple of line 317 / 428. *)
Definition accepted_content_types : list (option string) :=
  [Some "text/csv"; Some "application/vnd.ms-excel";
   Some "application/octet-stream"].

Definition detail_content_type : string :=
  "Ожидается CSV-файл (content-type text/csv).".
Definition detail_empty : string :=
  "CSV-файл не содержит данных (пустой DataFrame).".
Definition detail_unreadable (exc : exn) : string :=
  "Не удалось прочитать CSV: " ++ exn_str exc.

Definition msg_csv_ok : string :=
  "CSV выглядит достаточно качественным для обучения модели (по текущим эвристикам).".
Definition msg_csv_bad : string :=
  "CSV требует доработки перед обучением модели (по текущим эвристикам).".

(** The [try] statement shared, up to the endpoint name, by both CSV
    handlers (lines 316-348 and 427-456); its value is [df]. *)
Definition read_upload (endpoint : string) (start : float)
    (file : UploadFile.t) : M DataFrame :=
  try_except
    (when (negb (bool_decide
                   (UploadFile.content_type file ∈ accepted_content_types)))
       (now ← perf_counter;
        let latency_ms := ((now - start) * 1000.0)%float in
        log_request endpoint "error" latency_ms None None None;;
        raise (HTTPException 400 detail_content_type));;
     df ← pd_read_csv (UploadFile.file file);
     when (DataFrame_empty df)
       (now ← perf_counter;
        let latency_ms := ((now - start) * 1000.0)%float in
        log_request endpoint "error" latency_ms None None None;;
        raise (HTTPException 400 detail_empty));;
     mret df)
    (fun exc =>
       match exc with
       | HTTPException _ _ => raise exc
       | _ =>
           now ← perf_counter;
           let latency_ms := ((now - start) * 1000.0)%float in
           log_request endpoint "error" latency_ms None None None;;
           raise (HTTPException 400 (detail_unreadable exc))
       end).

(** [{key: bool(value) for key, value in flags_all.items()
      if isinstance(value, bool)}] *)
Definition flags_bool_of (flags_all : gmap string value) : gmap string bool :=
  omap (fun v => match v with VBool b => Some b | _ => None end) flags_all.

(** [POST /quality-from-csv], lines 305-400.  [int(...)] around the two
    dimensions is the identity on integers. *)
Definition quality_from_csv (file : UploadFile.t) : M QualityResponse.t :=
  start ← perf_counter;
  df ← read_upload "/quality-from-csv" start file;
  let summary := summarize_dataset df in
  let missing_df := missing_table df in
  let flags_all := compute_quality_flags summary missing_df df in
  score ← lift (py_float (default (VFloat 0.0) (flags_all !! "quality_score")));
  let score := py_max 0.0 (py_min 1.0 score) in
  let ok_for_model := (0.7 <=? score)%float in
  let message := if ok_for_model then msg_csv_ok else msg_csv_bad in
  now ← perf_counter;
  let latency_ms := ((now - start) * 1000.0)%float in
  let flags_bool := flags_bool_of flags_all in
  '(n_rows, n_cols) ←
    try_except
      (n_rows ← getattr (summary_n_rows summary) "n_rows";
       n_cols ← getattr (summary_n_cols summary) "n_cols";
       mret (n_rows, n_cols))
      (fun exc =>
         match exc with
         | AttributeError _ => mret ((shape df).1, (shape df).2)
         | _ => raise exc
         end);
  log_request "/quality-from-csv" "success" latency_ms
    (Some ok_for_model) (Some n_rows) (Some n_cols);;
  mret (QualityResponse.mk ok_for_model score message latency_ms
          (Some flags_bool)
          (Some (<["n_cols" := n_cols]> (<["n_rows" := n_rows]> ∅)))).

(** [POST /quality-flags-from-csv], lines 412-482. *)
Definition quality_flags_from_csv (file : UploadFile.t)
    : M QualityFlagsResponse.t :=
  start ← perf_counter;
  df ← read_upload "/quality-flags-from-csv" start file;
  let summary := summarize_dataset df in
  let missing_df := missing_table df in
  let flags_all := compute_quality_flags summary missing_df df in
  now ← perf_counter;
  let latency_ms := ((now - start) * 1000.0)%float in
  let flags_bool := flags_bool_of flags_all in
  n_rows ← getattr (summary_n_rows summary) "n_rows";
  n_cols ← getattr (summary_n_cols summary) "n_cols";
  log_request "/quality-flags-from-csv" "success" latency_ms
    None (Some n_rows) (Some n_cols);;
  mret (QualityFlagsResponse.mk flags_bool).
End CsvHandlers.

(** ** What the specification says, in its own words

    Section 4.3 of the specification: the score as a table of deductions
    applied in order to 1.0 and then clamped, and the five flags by name. *)
Module Spec.
Import QualityRequest.
Local Open Scope float_scope.

(** Steps 2-6: (condition, amount) pairs, in order. *)
Definition deductions (fs : QualityRequest.t) : list (bool * float) :=
  [ (true, fs.(max_missing_share));
    ((fs.(n_rows) <? 1000)%Z, 0.2);
    ((fs.(n_cols) >? 100)%Z, 0.1);
    ((fs.(numeric_cols) =? 0)%Z && (fs.(categorical_cols) >? 0)%Z, 0.1);
    ((fs.(categorical_cols) =? 0)%Z && (fs.(numeric_cols) >? 0)%Z, 0.05) ].

(** One step: subtract the amount when the condition holds. *)
Definition deduct (s : float) (d : bool * float) : float :=
  if d.1 then s - d.2 else s.

(** Steps 1-6: the score before clamping. *)
Definition raw_score (fs : QualityRequest.t) : float :=
  fold_left deduct (deductions fs) 1.0.

(** Step 7: clamp to [[0.0, 1.0]]. *)
Definition clamp (s : float) : float :=
  if s <? 0.0 then 0.0 else if 1.0 <? s then 1.0 else s.

(** Steps 1-7. *)
Definition score (fs : QualityRequest.t) : float := clamp (raw_score fs).

(** The flag named [k], or [None] when [k] is not one of the five keys. *)
Definition flag (fs : QualityRequest.t) (k : string) : option bool :=
  if decide (k = "too_few_rows") then Some (fs.(n_rows) <? 1000)%Z
  else if decide (k = "too_many_columns") then Some (fs.(n_cols) >? 100)%Z
  else if decide (k = "too_many_missing") then Some (0.5 <? fs.(max_missing_share))
  else if decide (k = "no_numeric_columns") then Some (fs.(numeric_cols) =? 0)%Z
  else if decide (k = "no_categorical_columns") then Some (fs.(categorical_cols) =? 0)%Z
  else None.

(** [s] is [f] clamped to the unit interval: inside it always, 0 below, 1
    above, and numerically [f] itself when [f] lies inside. *)
Definition clamped (f s : float) : Prop :=
  (0 <=? s) = true /\ (s <=? 1) = true /\
  ((f <? 0) = true -> s = 0.0) /\
  ((1 <? f) = true -> s = 1.0) /\
  ((0 <=? f) = true -> (f <=? 1) = true -> (s =? f) = true).

(** A FeatureSet whose [max_missing_share] lies in [[0, 1]]. *)
Definition valid_share (fs : QualityRequest.t) : Prop :=
  (0 <=? fs.(max_missing_share)) = true /\
  (fs.(max_missing_share) <=? 1) = true.

(** Two FeatureSets that differ at most in [max_missing_share]. *)
Definition same_counts (a b : QualityRequest.t) : Prop :=
  a.(n_rows) = b.(n_rows) /\ a.(n_cols) = b.(n_cols) /\
  a.(numeric_cols) = b.(numeric_cols) /\
  a.(categorical_cols) = b.(categorical_cols).
End Spec.

(** ** Worlds and records used in the statements *)

(** The record an error branch logs: no verdict, no dimensions. *)
Definition error_record (endpoint : string) (latency_ms : float) (w : world)
    : LogRecord :=
  {| rec_endpoint := endpoint; rec_status := "error";
     rec_latency_ms := latency_ms; rec_ok_for_model := None;
     rec_n_rows := None; rec_n_cols := None;
     rec_request_id := request_id_var w |}.

(** The latency computed from the clock reading taken in [w]:
    [(perf_counter() - start) * 1000.0]. *)
Definition latency_since (start : float) (w : world) : float :=
  ((clock w (ticks w) - start) * 1000.0)%float.

(** The latency a handler reports when it started in [w] and read the clock
    once more: second reading minus the first, in milliseconds. *)
Definition elapsed_ms (w : world) : float :=
  ((clock w (S (ticks w)) - clock w (ticks w)) * 1000.0)%float.

(** A run that raised the client error [detail] after appending exactly the
    events [evs] to the journal of [w]. *)
Definition client_error {A : Type} (run : outcome A * world) (w : world)
    (detail : string) (evs : list event) : Prop :=
  run.1 = Raise (HTTPException 400 detail) /\
  journal run.2 = journal w ++ evs.

(** A run that handed exactly one record to the logger, an error record of
    [endpoint] carrying the latency known at the failure point, and then
    raised a 400; the record serialises without [ok_for_model], [n_rows] and
    [n_cols], and with no null field at all. *)
Definition one_error_record {A : Type} (run : outcome A * world) (w : world)
    (endpoint : string) : Prop :=
  exists detail r,
    run.1 = Raise (HTTPException 400 detail) /\
    logged (journal run.2) = logged (journal w) ++ [r] /\
    rec_endpoint r = endpoint /\
    rec_status r = "error" /\
    rec_latency_ms r = elapsed_ms w /\
    forall utcnow : string,
      JSONFormatter_format r utcnow !! "ok_for_model" = None /\
      JSONFormatter_format r utcnow !! "n_rows" = None /\
      JSONFormatter_format r utcnow !! "n_cols" = None /\
      forall k : string, JSONFormatter_format r utcnow !! k <> Some VNone.

(** The three ways the [try] block of a CSV handler fails. *)
Inductive ingestion_failure `{Core} (file : UploadFile.t) : Prop :=
  | InvalidContentType :
      UploadFile.content_type file ∉ accepted_content_types ->
      ingestion_failure file
  | ParseFailure (msg : string) :
      UploadFile.content_type file ∈ accepted_content_types ->
      read_csv (UploadFile.file file) = inl msg ->
      ingestion_failure file
  | EmptyDataset (df : DataFrame) :
      UploadFile.content_type file ∈ accepted_content_types ->
      read_csv (UploadFile.file file) = inr df ->
      DataFrame_empty df = true ->
      ingestion_failure file.


(** The dimensions a CSV result should carry (specification 4.4, step 5): the
    summary's own [n_rows] / [n_cols] when it has them, else the frame's. *)
Definition preferred_dims `{Core} (summary : DatasetSummary) (df : DataFrame)
    : Z * Z :=
  match summary_n_rows summary, summary_n_cols summary with
  | Some r, Some c => (r, c)
  | _, _ => ((shape df).1, (shape df).2)
  end.

(** [{"n_rows": r, "n_cols": c}] *)
Definition shape_dict (dims : Z * Z) : gmap string Z :=
  <["n_cols" := dims.2]> (<["n_rows" := dims.1]> ∅).

(** What [compute_quality_flags] answers for the frame [df]. *)
Definition flags_all_of `{Core} (df : DataFrame) : gmap string value :=
  compute_quality_flags (summarize_dataset df) (missing_table df) df.

(** The score entry [quality_from_csv] converts:
    [flags_all.get("quality_score", 0.0)]. *)
Definition score_entry `{Core} (df : DataFrame) : value :=
  default (VFloat 0) (flags_all_of df !! "quality_score").

(** The world after a successful [try] block and the second clock reading. *)
Definition parsed_world (file : UploadFile.t) (w : world) : world :=
  tick (record_event (ReadCsv (UploadFile.file file)) (tick w)).

(** The collaborator's contract (specification 4.5): [quality_score], when
    present, is a number and not a boolean. *)
Definition score_not_boolean (flags_all : gmap string value) : Prop :=
  forall b : bool, flags_all !! "quality_score" <> Some (VBool b).

(** [flags] is [flags_all] restricted to its boolean-tagged entries. *)
Definition boolean_restriction (flags_all : gmap string value)
    (flags : gmap string bool) : Prop :=
  (forall (k : string) (b : bool),
     flags !! k = Some b <-> flags_all !! k = Some (VBool b)) /\
  (forall (k : string) (v : value),
     flags_all !! k = Some v -> isinstance_bool v = false -> flags !! k = None).

(** The record a handler logs on success. *)
Definition success_record (endpoint : string) (latency_ms : float)
    (ok_for_model : option bool) (dims : Z * Z) (w : world) : LogRecord :=
  {| rec_endpoint := endpoint; rec_status := "success";
     rec_latency_ms := latency_ms; rec_ok_for_model := ok_for_model;
     rec_n_rows := Some dims.1; rec_n_cols := Some dims.2;
     rec_request_id := request_id_var w |}.

(** Unfolds the monad operations of a handler body. *)
Ltac run_monad :=
  cbv [mbind M_bind mret M_ret perf_counter log_request emit raise lift
       try_except when getattr];
  cbn [clock ticks request_id_var journal fst snd].

(** ** IEEE-754 binary64 as scaled integers

    Every finite binary64 number is an integer multiple of 2^-1074, so its
    value times 2^1074 is an integer.  [B2Z] is that integer for a
    [spec_float] (the specification type behind primitive floats), [RN] is
    round-to-nearest-even on such integers, and [F2Z] and [finite] carry both
    to primitive floats. *)

Section Binary64Defs.
Local Open Scope Z_scope.

(** The scaled value of a finite float; 0 for zeros (and, by convention, for
    infinities and NaN, which [SF_finite] excludes). *)
Definition B2Z (x : spec_float) : Z :=
  match x with
  | S754_finite s m e => cond_Zopp s (Zpos m * 2 ^ (e + 1074))
  | _ => 0
  end.

Definition SF_finite (x : spec_float) : bool :=
  match x with
  | S754_finite _ _ _ | S754_zero _ => true
  | _ => false
  end.

(** [m / 2^j] rounded to the nearest integer, ties to even. *)
Definition rne (m j : Z) : Z :=
  let q := m / 2 ^ j in
  match 2 * (m mod 2 ^ j) ?= 2 ^ j with
  | Lt => q
  | Eq => if Z.even q then q else q + 1
  | Gt => q + 1
  end.

(** The second half of [binary_round_aux]: renormalise the rounded mantissa
    [q] at exponent [t] and box it. *)
Definition finish (s : bool) (q t : Z) : spec_float :=
  let '(mrs, e) := shr_fexp prec emax q t loc_Exact in
  match shr_m mrs with
  | Z0 => S754_zero s
  | Zpos m => if e <=? emax - prec then S754_finite s m e else S754_infinity s
  | Zneg _ => S754_nan
  end.

(** The number of binary digits that do not fit in 53, for a scaled
    magnitude [n]; and [n] rounded to 53 significant digits. *)
Definition shift_of (n : Z) : Z := Z.max (Z.log2 n + 1 - 53) 0.

Definition rnd (n : Z) : Z := rne n (shift_of n) * 2 ^ shift_of n.

(** Rounding of a signed scaled value. *)
Definition RN (n : Z) : Z := Z.sgn n * rnd (Z.abs n).

(** The scaled value of a primitive float, and finiteness. *)
Definition F2Z (x : float) : Z := B2Z (Prim2SF x).

Definition finite (x : float) : Prop := SF_finite (Prim2SF x) = true.

End Binary64Defs.

(** A finite float of magnitude at most 2^(k - 1074). *)
Definition within (k : Z) (x : float) : Prop :=
  finite x /\ (Z.abs (F2Z x) <= 2 ^ k)%Z.

(** ** Stand-ins for pandas and the EDA core

    Enough of a collaborator to run the CSV handlers on concrete uploads: a
    frame is its shape, the empty upload does not parse, the upload ["a,b"]
    is a header without rows, anything else is a 3 x 2 frame; the summary
    attributes and the flag dictionary are given. *)
Definition stub_core (summary : option Z * option Z)
    (flags_all : gmap string value) : Core :=
  {| DataFrame := Z * Z;
     DatasetSummary := unit;
     MissingTable := unit;
     shape := fun df => df;
     read_csv := fun file =>
       if decide (file = "") then inl "No columns to parse from file"
       else if decide (file = "a,b") then inr (0%Z, 2%Z)
       else inr (3%Z, 2%Z);
     summarize_dataset := fun _ => tt;
     missing_table := fun _ => tt;
     compute_quality_flags := fun _ _ _ => flags_all;
     summary_n_rows := fun _ => summary.1;
     summary_n_cols := fun _ => summary.2;
     float_of_str := fun _ => None |}.

(** Flags as the EDA core reports them: booleans next to numeric diagnostics. *)
Definition stub_flags : gmap string value :=
  <["quality_score" := VFloat 0.75]>
  (<["max_missing_share" := VFloat 0.25]>
  (<["too_many_missing" := VBool false]>
  (<["too_few_rows" := VBool true]> ∅))).

(** The same without a [quality_score] entry. *)
Definition stub_flags_no_score : gmap string value :=
  <["too_many_missing" := VBool false]> (<["too_few_rows" := VBool true]> ∅).

Definition csv_upload (body : string) : UploadFile.t :=
  UploadFile.mk (Some "text/csv") body.

Definition png_upload : UploadFile.t :=
  UploadFile.mk (Some "image/png") "x,y".

(** A world whose clock advances by half a second per reading. *)
Definition idle_world : world :=
  {| clock := fun n => (PrimFloat.of_uint63 (Uint63.of_nat n) / 2)%float;
     ticks := 0;
     request_id_var := "unknown";
     journal := [] |}.

(** The two FeatureSets of the specification's worked examples. *)
Definition mostly_missing : QualityRequest.t :=
  QualityRequest.mk 2000 5 0.9 3 2.

Definition small_clean : QualityRequest.t :=
  QualityRequest.mk 500 10 0.0 5 5.

(** [small_clean] with a quarter of a column missing. *)
Definition small_sparse : QualityRequest.t :=
  QualityRequest.mk 500 10 0.25 5 5.

(** A core whose summary carries its dimensions, one whose summary carries
    none, and one that reports no [quality_score]. *)
Definition full_core : Core := stub_core (Some 3%Z, Some 2%Z) stub_flags.
Definition bare_core : Core := stub_core (None, None) stub_flags.
Definition scoreless_core : Core :=
  stub_core (Some 3%Z, Some 2%Z) stub_flags_no_score.

(** A large table with three tenths of a column missing. *)
Definition threshold_case : QualityRequest.t :=
  QualityRequest.mk 5000 10 0.3 5 5.

(** ** The request-id middleware, lines 80-92 *)

(** The world with the context variable bound to [v]. *)
Definition set_request_id (v : string) (w : world) : world :=
  {| clock := clock w; ticks := ticks w;
     request_id_var := v; journal := journal w |}.

(** [request_id_var.set(v)]: the token remembers the previous value. *)
Definition request_id_var_set (v : string) : M string := fun w =>
  (Return (request_id_var w), set_request_id v w).

(** [request_id_var.reset(token)] *)
Definition request_id_var_reset (token : string) : M unit := fun w =>
  (Return tt, set_request_id token w).

(** [try: body finally: final] -- [final] runs on both ways out of [body]. *)
Definition try_finally {A : Type} (body : M A) (final : M unit) : M A :=
  fun w =>
    match body w with
    | (o, w') =>
        match final w' with
        | (Return _, w'') => (o, w'')
        | (Raise e, w'') => (Raise e, w'')
        end
    end.

(** [RequestIDMiddleware.dispatch].  [uuid4] is what [str(uuid.uuid4())]
    answers in this call and [call_next] is the rest of the application for
    this request; the copy kept in [request.state] has no reader here. *)
Definition dispatch {A : Type} (uuid4 : string) (call_next : M A) : M A :=
  let request_id := uuid4 in
  token ← request_id_var_set request_id;
  try_finally call_next (request_id_var_reset token).

(** ** Vocabulary of the further statements *)

(** A run from [w] that only appended the events [evs] to the journal and
    left the clock function and the context variable as they were. *)
Definition appends (w w' : world) (evs : list event) : Prop :=
  journal w' = journal w ++ evs /\
  request_id_var w' = request_id_var w /\
  clock w' = clock w.

(** What a handler run may do to the journal, by outcome: a response or an
    [HTTPException] comes with exactly one log record of the matching
    status, any other exception with none; every record is tagged with the
    endpoint and the current request id. *)
Definition accounted {A : Type} (endpoint : string) (w : world)
    (o : outcome A) (evs : list event) : Prop :=
  Forall (fun r => rec_endpoint r = endpoint /\
                   rec_request_id r = request_id_var w) (logged evs) /\
  match o with
  | Return _ => exists r, logged evs = [r] /\ rec_status r = "success"
  | Raise (HTTPException code _) =>
      code = 400%Z /\ exists r, logged evs = [r] /\ rec_status r = "error"
  | Raise _ => logged evs = []
  end.

(** A handler that behaves as above in every world. *)
Definition well_behaved {A : Type} (endpoint : string) (h : M A) : Prop :=
  forall w : world,
    exists evs : list event,
      appends w (h w).2 evs /\ accounted endpoint w (h w).1 evs.

(** The penalty conditions of [b] include those of [a]. *)
Definition at_least_as_penalised (a b : QualityRequest.t) : Prop :=
  Forall2 (fun da db : bool * float => (da.1 = true -> db.1 = true) /\ da.2 = db.2)
    (tail (Spec.deductions a)) (tail (Spec.deductions b)).

(** Flags whose [quality_score] cannot be converted, and flags whose
    [quality_score] is not a number. *)
Definition stub_flags_none_score : gmap string value :=
  <["quality_score" := VNone]> stub_flags_no_score.

Definition stub_flags_nan_score : gmap string value :=
  <["quality_score" := VFloat nan]> stub_flags_no_score.

Definition noneful_core : Core :=
  stub_core (Some 3%Z, Some 2%Z) stub_flags_none_score.

Definition nan_core : Core :=
  stub_core (Some 3%Z, Some 2%Z) stub_flags_nan_score.

(** [small_clean] with too many columns as well, and a table that is mostly
    empty cells. *)
Definition small_wide : QualityRequest.t :=
  QualityRequest.mk 500 200 0.0 5 5.

Definition sparse_table : QualityRequest.t :=
  QualityRequest.mk 5000 10 0.6 5 5.

(** A table with no penalty at all and half of a column missing. *)
Definition half_missing : QualityRequest.t :=
  QualityRequest.mk 1000 0 0.5 1 1.

(** Two responses that differ at most in the reported latency, and two
    outcomes that are the same up to a relation on the returned values. *)
Definition same_verdict (a b : QualityResponse.t) : Prop :=
  QualityResponse.ok_for_model a = QualityResponse.ok_for_model b /\
  QualityResponse.quality_score a = QualityResponse.quality_score b /\
  QualityResponse.message a = QualityResponse.message b /\
  QualityResponse.flags a = QualityResponse.flags b /\
  QualityResponse.dataset_shape a = QualityResponse.dataset_shape b.

Definition same_outcome {A : Type} (R : A -> A -> Prop) (o1 o2 : outcome A)
    : Prop :=
  match o1, o2 with
  | Return a, Return b => R a b
  | Raise e1, Raise e2 => e1 = e2
  | _, _ => False
  end.

(** An upload whose [content_type] is [None]. *)
Definition untyped_upload (body : string) : UploadFile.t :=
  UploadFile.mk None body.

(** * binary64 arithmetic on scaled integers *)

Section Binary64.
Local Open Scope Z_scope.

(** ** Valid floats and their order *)

Lemma cond_Zopp_eq (s : bool) (z : Z) : cond_Zopp s z = if s then - z else z.
Proof. reflexivity. Qed.

Lemma digits2_pos_bounds (m : positive) :
  (2 ^ (Zpos (digits2_pos m) - 1) <= Zpos m < 2 ^ Zpos (digits2_pos m))%Z.
Proof.
  induction m as [p IH|p IH|]; cbn [digits2_pos].
  - rewrite Pos2Z.inj_succ, Z.pow_succ_r by lia.
    replace (Z.succ (Z.pos (digits2_pos p)) - 1)%Z
      with (Z.succ (Z.pos (digits2_pos p) - 1))%Z by lia.
    rewrite Z.pow_succ_r by lia. lia.
  - rewrite Pos2Z.inj_succ, Z.pow_succ_r by lia.
    replace (Z.succ (Z.pos (digits2_pos p)) - 1)%Z
      with (Z.succ (Z.pos (digits2_pos p) - 1))%Z by lia.
    rewrite Z.pow_succ_r by lia. lia.
  - cbn. lia.
Qed.

Lemma digits2_pos_log2 (m : positive) :
  Zpos (digits2_pos m) = (Z.log2 (Zpos m) + 1)%Z.
Proof.
  pose proof (digits2_pos_bounds m) as Hb.
  symmetry. apply Z.add_move_r. apply Z.log2_unique; [lia|].
  replace (Z.succ (Z.pos (digits2_pos m) - 1)) with (Z.pos (digits2_pos m)) by lia.
  exact Hb.
Qed.

(** A valid finite binary64: exponent between -1074 and 971, mantissa below
    2^53, and normal (53 digits) unless the exponent is -1074. *)
Lemma bounded_inv (m : positive) (e : Z) :
  bounded prec emax m e = true ->
  (-1074 <= e <= 971)%Z /\ (Zpos m < 2 ^ 53)%Z /\
  (e = (-1074)%Z \/ (2 ^ 52 <= Zpos m)%Z).
Proof.
  unfold bounded, canonical_mantissa, fexp, emin, prec, emax.
  intros Hb. apply andb_prop in Hb as [Hc He].
  apply Z.eqb_eq in Hc. apply Z.leb_le in He.
  pose proof (digits2_pos_bounds m) as [Hlo Hhi].
  set (d := Zpos (digits2_pos m)) in *.
  assert (Hd : (d <= 53)%Z) by lia.
  split; [lia|]. split.
  - eapply Z.lt_le_trans; [exact Hhi|]. apply Z.pow_le_mono_r; lia.
  - destruct (Z.eq_dec e (-1074)) as [->|Hne]; [left; reflexivity|right].
    assert (d = 53%Z) by lia. replace 52%Z with (d - 1)%Z by lia. exact Hlo.
Qed.

(** Magnitudes are ordered by exponent first: a mantissa below 2^53 at a
    smaller exponent is below a normal mantissa at a larger one. *)
Lemma scaled_lt (m1 e1 m2 e2 : Z) :
  -1074 <= e1 < e2 -> 0 < m1 < 2 ^ 53 -> 2 ^ 52 <= m2 ->
  m1 * 2 ^ (e1 + 1074) < m2 * 2 ^ (e2 + 1074).
Proof.
  intros He Hm1 Hm2.
  replace (e2 + 1074) with ((e2 - e1 - 1) + 1 + (e1 + 1074)) by lia.
  rewrite (Z.pow_add_r 2 (e2 - e1 - 1 + 1) (e1 + 1074)) by lia.
  rewrite (Z.pow_add_r 2 (e2 - e1 - 1) 1) by lia.
  assert (HP : 0 < 2 ^ (e1 + 1074)) by (apply Z.pow_pos_nonneg; lia).
  assert (HQ : 1 <= 2 ^ (e2 - e1 - 1)) by (apply (Z.pow_le_mono_r 2 0); lia).
  change (2 ^ 1) with 2. change (2 ^ 53) with (2 ^ 52 * 2) in Hm1.
  assert (Hc : 0 < 2 ^ 52) by reflexivity.
  set (P := 2 ^ (e1 + 1074)) in *. set (Q := 2 ^ (e2 - e1 - 1)) in *.
  set (c := 2 ^ 52) in *. clearbody P Q c.
  apply (Z.lt_le_trans _ (c * 2 * P)); [apply Z.mul_lt_mono_pos_r; lia|].
  apply (Z.le_trans _ (m2 * 2 * P)); [apply Z.mul_le_mono_nonneg_r; lia|].
  replace (m2 * (Q * 2 * P)) with (Q * (m2 * 2 * P)) by ring.
  assert (0 <= m2 * 2 * P) by (apply Z.mul_nonneg_nonneg; lia).
  nia.
Qed.

Lemma SFcompare_B2Z (x y : spec_float) :
  valid_binary x = true -> valid_binary y = true ->
  SF_finite x = true -> SF_finite y = true ->
  SFcompare x y = Some (B2Z x ?= B2Z y)%Z.
Proof.
  intros Vx Vy Fx Fy.
  destruct x as [sx|sx| |sx mx ex]; try discriminate Fx;
  destruct y as [sy|sy| |sy my ey]; try discriminate Fy;
  cbn [SFcompare B2Z valid_binary] in *; clear Fx Fy.
  - reflexivity.
  - apply bounded_inv in Vy as [He _].
    assert (0 < Zpos my * 2 ^ (ey + 1074))%Z by (apply Z.mul_pos_pos; [lia|apply Z.pow_pos_nonneg; lia]).
    rewrite cond_Zopp_eq; destruct sy; f_equal; symmetry;
      [apply Z.compare_gt_iff|apply Z.compare_lt_iff]; lia.
  - apply bounded_inv in Vx as [He _].
    assert (0 < Zpos mx * 2 ^ (ex + 1074))%Z by (apply Z.mul_pos_pos; [lia|apply Z.pow_pos_nonneg; lia]).
    rewrite cond_Zopp_eq; destruct sx; f_equal; symmetry;
      [apply Z.compare_lt_iff|apply Z.compare_gt_iff]; lia.
  - apply bounded_inv in Vx as (Hex & Hmx & Hnx).
    apply bounded_inv in Vy as (Hey & Hmy & Hny).
    assert (Hpx : (0 < Zpos mx * 2 ^ (ex + 1074))%Z)
      by (apply Z.mul_pos_pos; [lia|apply Z.pow_pos_nonneg; lia]).
    assert (Hpy : (0 < Zpos my * 2 ^ (ey + 1074))%Z)
      by (apply Z.mul_pos_pos; [lia|apply Z.pow_pos_nonneg; lia]).
    pose proof scaled_lt as Hlt.
    assert (Hmag : (match (ex ?= ey)%Z with
                    | Eq => Pos.compare_cont Eq mx my
                    | c => c end)
                   = (Zpos mx * 2 ^ (ex + 1074) ?= Zpos my * 2 ^ (ey + 1074))%Z).
    { destruct (Z.compare_spec ex ey) as [->|Hl|Hg].
      - change (Pos.compare_cont Eq mx my) with (Zpos mx ?= Zpos my)%Z.
        assert (0 < 2 ^ (ey + 1074))%Z by (apply Z.pow_pos_nonneg; lia).
        destruct (Z.compare_spec (Zpos mx) (Zpos my)) as [Heq|Hl|Hg]; symmetry.
        + apply Z.compare_eq_iff. congruence.
        + apply Z.compare_lt_iff. nia.
        + apply Z.compare_gt_iff. nia.
      - symmetry. apply Z.compare_lt_iff. apply Hlt; lia.
      - symmetry. apply Z.compare_gt_iff. apply Hlt; lia. }
    rewrite !cond_Zopp_eq; destruct sx, sy; f_equal.
    + rewrite Z.compare_opp.
      rewrite (Z.compare_antisym (Z.pos mx * 2 ^ (ex + 1074))), <- Hmag.
      destruct (ex ?= ey)%Z; reflexivity.
    + symmetry. apply Z.compare_lt_iff. lia.
    + symmetry. apply Z.compare_gt_iff. lia.
    + rewrite <- Hmag. destruct (ex ?= ey)%Z; reflexivity.
Qed.

(** ** Rounding to nearest, ties to even, on integers *)

Lemma iter_pos_nat {A : Type} (f : A -> A) (p : positive) (x : A) :
  SpecFloat.iter_pos f p x = Nat.iter (Pos.to_nat p) f x.
Proof.
  revert x. induction p as [p IH|p IH|]; intros x; cbn [SpecFloat.iter_pos].
  - rewrite !IH, Pos2Nat.inj_xI.
    replace (S (2 * Pos.to_nat p))%nat with (Pos.to_nat p + (Pos.to_nat p + 1))%nat by lia.
    rewrite !Nat.iter_add. reflexivity.
  - rewrite !IH, Pos2Nat.inj_xO.
    replace (2 * Pos.to_nat p)%nat with (Pos.to_nat p + Pos.to_nat p)%nat by lia.
    rewrite Nat.iter_add. reflexivity.
  - reflexivity.
Qed.

Lemma shr_1_spec (m : Z) (r s : bool) :
  0 <= m ->
  shr_1 (Build_shr_record m r s) = Build_shr_record (m / 2) (Z.odd m) (r || s).
Proof.
  intros Hm. rewrite <- Z.div2_div.
  destruct m as [|[p|p|]|]; try reflexivity. lia.
Qed.

(** The record after [n] right shifts of [m]: quotient, round bit, sticky bit. *)
Lemma shr_iter_spec (m : Z) (n : nat) :
  0 <= m ->
  Nat.iter n shr_1 (Build_shr_record m false false) =
    Build_shr_record (m / 2 ^ Z.of_nat n)
      (2 ^ Z.of_nat n <=? 2 * (m mod 2 ^ Z.of_nat n))
      (negb (m mod 2 ^ Z.of_nat n =? 0) && negb (2 * (m mod 2 ^ Z.of_nat n) =? 2 ^ Z.of_nat n)).
Proof.
  intros Hm. induction n as [|n IH].
  - unfold Nat.iter; cbn [nat_rect]. change (2 ^ Z.of_nat 0) with 1.
    rewrite Z.div_1_r, Z.mod_1_r. reflexivity.
  - rewrite Nat.iter_succ, IH. clear IH.
    rewrite Nat2Z.inj_succ, Z.pow_succ_r by lia.
    set (P := 2 ^ Z.of_nat n).
    assert (HP : 0 < P) by (apply Z.pow_pos_nonneg; lia).
    rewrite shr_1_spec by (apply Z.div_pos; lia).
    rewrite (Z.mul_comm 2 P), <- Z.div_div by lia.
    rewrite Z.rem_mul_r by lia.
    pose proof (Z.mod_pos_bound m P HP) as HR.
    set (R := m mod P) in *. set (q := m / P).
    rewrite (Zmod_odd q).
    f_equal.
    + destruct (Z.odd q); [apply eq_sym, Z.leb_le|apply eq_sym, Z.leb_gt]; lia.
    + transitivity (negb (R =? 0)).
      * destruct (Z.eqb_spec R 0) as [->|HR0].
        { change (2 * 0) with 0. destruct (Z.leb_spec P 0); [lia|reflexivity]. }
        destruct (Z.leb_spec P (2 * R)); [reflexivity|].
        destruct (Z.eqb_spec (2 * R) P); [lia|reflexivity].
      * destruct (Z.odd q).
        { destruct (Z.eqb_spec (R + P * 1) 0); [lia|].
          destruct (Z.eqb_spec R 0), (Z.eqb_spec (2 * (R + P * 1)) (P * 2));
            try reflexivity; lia. }
        { rewrite Z.mul_0_r, Z.add_0_r.
          destruct (Z.eqb_spec R 0); [reflexivity|].
          destruct (Z.eqb_spec (2 * R) (P * 2)); [lia|reflexivity]. }
Qed.

(** The rounded mantissa after a shift by [n >= 1] digits is [rne m n]. *)
Lemma shr_round_spec (m : Z) (j : positive) :
  0 <= m ->
  let mrs := SpecFloat.iter_pos shr_1 j (Build_shr_record m false false) in
  round_nearest_even (shr_m mrs) (loc_of_shr_record mrs) = rne m (Zpos j).
Proof.
  intros Hm. cbv zeta. rewrite iter_pos_nat, (shr_iter_spec m _ Hm).
  rewrite positive_nat_Z. unfold rne.
  set (P := 2 ^ Z.pos j).
  assert (HP : 2 <= P).
  { unfold P. change 2 with (2 ^ 1) at 1. apply Z.pow_le_mono_r; lia. }
  pose proof (Z.mod_pos_bound m P ltac:(lia)) as HR.
  set (R := m mod P) in *. set (q := m / P).
  cbn [shr_m loc_of_shr_record].
  destruct (Z.leb_spec P (2 * R)) as [Hr|Hr].
  - destruct (Z.eqb_spec R 0) as [HR0|HR0]; [lia|].
    destruct (Z.eqb_spec (2 * R) P) as [He|He]; cbn [negb andb round_nearest_even].
    + rewrite (proj2 (Z.compare_eq_iff _ _) He). reflexivity.
    + rewrite (proj2 (Z.compare_gt_iff _ _)) by lia. reflexivity.
  - rewrite (proj2 (Z.compare_lt_iff _ _)) by lia.
    destruct (negb (R =? 0) && negb (2 * R =? P)); reflexivity.
Qed.

(** ** The rounding of [binary_round], as a function on scaled integers *)

Lemma fexp_eq (x : Z) : fexp prec emax x = Z.max (x - 53) (-1074).
Proof. reflexivity. Qed.

Lemma shl_align_spec (m : positive) (e e' : Z) :
  e' <= e ->
  Zpos (shl_align m e e').1 = Zpos m * 2 ^ (e - e') /\
  (shl_align m e e').2 = e'.
Proof.
  intros He. unfold shl_align.
  change (IntDef.Z.sub e' e) with (e' - e).
  destruct (e' - e) as [|d|d] eqn:Hd; try lia.
  - assert (e = e') as -> by lia. rewrite Z.sub_diag, Z.mul_1_r. auto.
  - cbn [fst snd]. split; [|reflexivity].
    replace (e - e') with (Zpos d) by lia.
    change (PosDef.Pos.iter xO m d) with (Pos.iter xO m d).
    rewrite <- Z.shiftl_mul_pow2 by lia. cbn [Z.shiftl].
    rewrite (Pos.iter_swap_gen _ _ Zpos xO (Z.mul 2)) by reflexivity.
    reflexivity.
Qed.

Lemma binary_round_aux_finish (s : bool) (mx ex : Z) (lx : location) :
  binary_round_aux prec emax s mx ex lx =
  let '(mrs, e) := shr_fexp prec emax mx ex lx in
  finish s (round_nearest_even (shr_m mrs) (loc_of_shr_record mrs)) e.
Proof. reflexivity. Qed.

(** A mantissa that is already canonical at [t] needs no shift. *)
Lemma shr_fexp_canonical (p : positive) (t : Z) :
  canonical_mantissa prec emax p t = true ->
  shr_fexp prec emax (Zpos p) t loc_Exact = (Build_shr_record (Zpos p) false false, t).
Proof.
  unfold canonical_mantissa, shr_fexp. intros Hc. apply Z.eqb_eq in Hc.
  cbn [Zdigits2 shr_record_of_loc]. rewrite Hc.
  change (IntDef.Z.sub t t) with (t - t). rewrite Z.sub_diag. reflexivity.
Qed.

Lemma finish_canonical (s : bool) (p : positive) (t : Z) :
  bounded prec emax p t = true ->
  finish s (Zpos p) t = S754_finite s p t.
Proof.
  intros Hb. unfold finish. apply andb_prop in Hb as [Hc He].
  rewrite (shr_fexp_canonical p t Hc). cbn [shr_m].
  change (emax - prec) with (IntDef.Z.sub emax prec). 
  change (t <=? IntDef.Z.sub emax prec) with (IntDef.Z.leb t (IntDef.Z.sub emax prec)).
  rewrite He. reflexivity.
Qed.

Lemma bounded_intro (p : positive) (t : Z) :
  -1074 <= t <= 971 -> Zpos p < 2 ^ 53 ->
  (t = -1074 \/ 2 ^ 52 <= Zpos p) ->
  bounded prec emax p t = true.
Proof.
  intros Ht Hp Hn. unfold bounded, canonical_mantissa.
  apply andb_true_intro. split; [|apply Z.leb_le; change (IntDef.Z.sub emax prec) with 971; lia].
  apply Z.eqb_eq. rewrite fexp_eq.
  change (IntDef.Z.add (Z.pos (digits2_pos p)) t) with (Z.pos (digits2_pos p) + t).
  pose proof (digits2_pos_bounds p) as [Hlo Hhi].
  set (d := Z.pos (digits2_pos p)) in *.
  assert (Hd : d <= 53).
  { assert (d - 1 < 53); [|lia].
    apply (Z.pow_lt_mono_r_iff 2); [lia|lia|]. lia. }
  destruct Hn as [->|Hn]; [lia|].
  assert (52 < d); [|lia].
  apply (Z.pow_lt_mono_r_iff 2); [lia|lia|]. lia.
Qed.

Lemma rne_scaled (m a j : Z) :
  0 <= a -> 0 <= j -> rne (m * 2 ^ a) (j + a) = rne m j.
Proof.
  intros Ha Hj. unfold rne. rewrite Z.pow_add_r by lia.
  assert (0 < 2 ^ a) by (apply Z.pow_pos_nonneg; lia).
  assert (0 < 2 ^ j) by (apply Z.pow_pos_nonneg; lia).
  rewrite Z.div_mul_cancel_r, Z.mul_mod_distr_r by lia.
  rewrite Z.mul_assoc, <- Zmult_compare_compat_r by lia. reflexivity.
Qed.

Lemma rne_0 (m : Z) : rne m 0 = m.
Proof. unfold rne. change (2 ^ 0) with 1. rewrite Z.div_1_r, Z.mod_1_r. reflexivity. Qed.

Lemma rne_exact (m a : Z) : 0 <= a -> rne (m * 2 ^ a) a = m.
Proof.
  intros Ha. pose proof (rne_scaled m a 0 Ha ltac:(lia)) as Hs.
  rewrite Z.add_0_l, rne_0 in Hs. exact Hs.
Qed.

Lemma rne_bounds (m j : Z) : m / 2 ^ j <= rne m j <= m / 2 ^ j + 1.
Proof.
  unfold rne. destruct (2 * (m mod 2 ^ j) ?= 2 ^ j); [destruct (Z.even _)| |]; lia.
Qed.

Lemma finish_rounded (s : bool) (q t : Z) :
  -1074 <= t <= 970 -> 2 ^ 52 <= q <= 2 ^ 53 ->
  exists m' e', finish s q t = S754_finite s m' e' /\
    bounded prec emax m' e' = true /\
    Zpos m' * 2 ^ (e' + 1074) = q * 2 ^ (t + 1074).
Proof.
  intros Ht Hq. destruct (Z.eq_dec q (2 ^ 53)) as [->|Hne].
  - exists (4503599627370496%positive), (t + 1). split; [|split].
    + unfold finish, shr_fexp.
      replace (IntDef.Z.sub (fexp prec emax (IntDef.Z.add (Zdigits2 (2 ^ 53)) t)) t)
        with 1.
      2:{ rewrite fexp_eq. change (IntDef.Z.add (Zdigits2 (2 ^ 53)) t) with (54 + t).
          change (IntDef.Z.sub ?a ?b) with (a - b). lia. }
      cbn [shr shr_record_of_loc SpecFloat.iter_pos]. change (2 ^ 53) with 9007199254740992.
      cbn [shr_1 shr_m orb].
      change (IntDef.Z.add t 1) with (t + 1).
      destruct (Z.leb_spec (t + 1) (emax - prec)) as [_|Hgt]; [reflexivity|].
      change (emax - prec) with 971 in Hgt. lia.
    + apply bounded_intro; [lia|reflexivity|right; reflexivity].
    + replace (t + 1 + 1074) with (Z.succ (t + 1074)) by lia.
      rewrite Z.pow_succ_r by lia. change (2 ^ 53) with (4503599627370496 * 2). ring.
  - destruct q as [|pq|pq]; try (exfalso; lia).
    assert (Hb : bounded prec emax pq t = true) by (apply bounded_intro; lia).
    exists pq, t. rewrite (finish_canonical s pq t Hb). auto.
Qed.

Lemma shift_of_scaled (p : positive) (e : Z) :
  -1074 <= e ->
  shift_of (Zpos p * 2 ^ (e + 1074)) =
    Z.max (Zpos (digits2_pos p) + e - 53) (-1074) + 1074.
Proof.
  intros He. unfold shift_of.
  rewrite Z.log2_mul_pow2 by lia. rewrite digits2_pos_log2. lia.
Qed.

(** [binary_round] on a magnitude below 2^1023 yields the valid float whose
    scaled value is the rounding of the exact scaled value. *)
Lemma binary_round_spec (s : bool) (p : positive) (e : Z) :
  -1074 <= e -> Zpos p * 2 ^ (e + 1074) < 2 ^ 2097 ->
  exists m' e', binary_round prec emax s p e = S754_finite s m' e' /\
    bounded prec emax m' e' = true /\
    Zpos m' * 2 ^ (e' + 1074) = rnd (Zpos p * 2 ^ (e + 1074)).
Proof.
  intros He Hn. unfold binary_round, rnd.
  rewrite (shift_of_scaled p e He), fexp_eq.
  change (IntDef.Z.add (Z.pos (digits2_pos p)) e) with (Z.pos (digits2_pos p) + e).
  pose proof (digits2_pos_bounds p) as [Hlo Hhi].
  set (d := Z.pos (digits2_pos p)) in *.
  assert (Hd : 1 <= d) by (unfold d; lia).
  set (t := Z.max (d + e - 53) (-1074)).
  assert (Ht : -1074 <= t <= 970).
  { split; [lia|]. assert (d - 1 + (e + 1074) < 2097); [|lia].
    apply (Z.pow_lt_mono_r_iff 2); [lia|lia|].
    rewrite Z.pow_add_r by lia.
    assert (0 < 2 ^ (e + 1074)) by (apply Z.pow_pos_nonneg; lia). nia. }
  destruct (Z.lt_ge_cases t e) as [Hte|Hte].
  - (* fewer than 53 digits above the target exponent: exact, shifted left *)
    pose proof (shl_align_spec p e t ltac:(lia)) as [Hmz Hez].
    destruct (shl_align p e t) as [mz ez]. cbn [fst snd] in Hmz, Hez. subst ez.
    assert (Hb : bounded prec emax mz t = true).
    { assert (0 < 2 ^ (e - t)) by (apply Z.pow_pos_nonneg; lia).
      apply bounded_intro; [lia| |].
      - rewrite Hmz. apply Z.lt_le_trans with (2 ^ d * 2 ^ (e - t)); [nia|].
        rewrite <- Z.pow_add_r by lia. apply Z.pow_le_mono_r; lia.
      - destruct (Z.eq_dec t (-1074)); [left; assumption|right].
        rewrite Hmz. apply Z.le_trans with (2 ^ (d - 1) * 2 ^ (e - t)); [|nia].
        rewrite <- Z.pow_add_r by lia. apply Z.pow_le_mono_r; lia. }
    exists mz, t. split; [|split; [exact Hb|]].
    + rewrite binary_round_aux_finish.
      apply andb_prop in Hb as Hb'. destruct Hb' as [Hc _].
      rewrite (shr_fexp_canonical mz t Hc). cbn [shr_m loc_of_shr_record round_nearest_even].
      apply finish_canonical, Hb.
    + replace (Z.pos p * 2 ^ (e + 1074)) with (Z.pos mz * 2 ^ (t + 1074)).
      2:{ rewrite Hmz, <- Z.mul_assoc, <- Z.pow_add_r by lia. do 2 f_equal. lia. }
      rewrite rne_exact by lia. reflexivity.
  - (* the mantissa is kept or shifted right by [t - e] digits and rounded *)
    assert (Hal : shl_align p e t = (p, e)).
    { unfold shl_align. change (IntDef.Z.sub t e) with (t - e).
      destruct (t - e) eqn:Hd'; try reflexivity. lia. }
    rewrite Hal. rewrite binary_round_aux_finish.
    unfold shr_fexp at 1. cbn [Zdigits2 shr_record_of_loc]. fold d.
    rewrite fexp_eq. change (IntDef.Z.add d e) with (d + e). fold t.
    change (IntDef.Z.sub t e) with (t - e).
    destruct (t - e) as [|j|j] eqn:Hj; try lia.
    + (* no shift *)
      assert (t = e) as Hte' by lia. cbn [shr shr_m loc_of_shr_record round_nearest_even].
      assert (Hb : bounded prec emax p e = true).
      { apply bounded_intro; [lia| |].
        - apply Z.lt_le_trans with (2 ^ d); [lia|]. apply Z.pow_le_mono_r; lia.
        - destruct (Z.eq_dec e (-1074)); [left; assumption|right].
          apply Z.le_trans with (2 ^ (d - 1)); [|lia]. apply Z.pow_le_mono_r; lia. }
      exists p, e. rewrite (finish_canonical s p e Hb). split; [reflexivity|split;[exact Hb|]].
      rewrite Hte', rne_exact by lia. reflexivity.
    + (* shift by [j = d - 53] digits *)
      cbn [shr]. change (IntDef.Z.add e (Z.pos j)) with (e + Z.pos j).
      replace (e + Z.pos j) with t by lia.
      rewrite (shr_round_spec (Z.pos p) j) by lia.
      assert (Hjd : Z.pos j = d - 53) by lia.
      assert (HP : 0 < 2 ^ Z.pos j) by (apply Z.pow_pos_nonneg; lia).
      assert (Hq : 2 ^ 52 <= Z.pos p / 2 ^ Z.pos j < 2 ^ 53).
      { split.
        - apply Z.div_le_lower_bound; [lia|].
          rewrite <- Z.pow_add_r by lia. replace (Z.pos j + 52) with (d - 1) by lia. lia.
        - apply Z.div_lt_upper_bound; [lia|].
          rewrite <- Z.pow_add_r by lia. replace (Z.pos j + 53) with d by lia. lia. }
      pose proof (rne_bounds (Z.pos p) (Z.pos j)) as Hr.
      destruct (finish_rounded s (rne (Z.pos p) (Z.pos j)) t Ht ltac:(lia))
        as (m' & e' & Hfin & Hb & Hval).
      exists m', e'. split; [exact Hfin|split; [exact Hb|]].
      rewrite Hval. replace (t + 1074) with (Z.pos j + (e + 1074)) by lia.
      rewrite rne_scaled by lia. reflexivity.
Qed.

Lemma rnd_representable (m : positive) (e : Z) :
  bounded prec emax m e = true ->
  rnd (Zpos m * 2 ^ (e + 1074)) = Zpos m * 2 ^ (e + 1074).
Proof.
  intros Hb. pose proof (bounded_inv m e Hb) as (He & _ & _).
  apply andb_prop in Hb as [Hc _]. unfold canonical_mantissa in Hc.
  apply Z.eqb_eq in Hc. rewrite fexp_eq in Hc.
  change (IntDef.Z.add (Z.pos (digits2_pos m)) e) with (Z.pos (digits2_pos m) + e) in Hc.
  unfold rnd. rewrite shift_of_scaled by lia.
  replace (Z.max (Z.pos (digits2_pos m) + e - 53) (-1074) + 1074) with (e + 1074) by lia.
  rewrite rne_exact by lia. reflexivity.
Qed.

Lemma RN_representable (x : spec_float) :
  valid_binary x = true -> RN (B2Z x) = B2Z x.
Proof.
  destruct x as [s|s| |s m e]; try reflexivity.
  cbn [valid_binary B2Z]. intros Hb.
  pose proof (bounded_inv m e Hb) as (He & _ & _).
  assert (0 < Zpos m * 2 ^ (e + 1074)) by (apply Z.mul_pos_pos; [lia|apply Z.pow_pos_nonneg; lia]).
  unfold RN. rewrite cond_Zopp_eq. destruct s.
  - rewrite Z.sgn_neg, Z.abs_neq, Z.opp_involutive by lia.
    rewrite (rnd_representable m e Hb). lia.
  - rewrite Z.sgn_pos, Z.abs_eq by lia.
    rewrite (rnd_representable m e Hb). lia.
Qed.

Lemma RN_opp (n : Z) : RN (- n) = - RN n.
Proof. unfold RN. rewrite Z.sgn_opp, Z.abs_opp. ring. Qed.

Lemma B2Z_SFopp (x : spec_float) : B2Z (SFopp x) = - B2Z x.
Proof.
  destruct x as [s|s| |s m e]; try reflexivity.
  cbn [SFopp B2Z]. rewrite !cond_Zopp_eq. destruct s; cbn [negb]; lia.
Qed.

(** [SFsub] on valid finite operands whose exact difference is below 2^1023
    in magnitude: the result is a valid finite float, its scaled value is the
    rounded exact difference, and it is the negative zero only for
    [(-0) - (+0)]. *)
Lemma SFsub_spec (x y : spec_float) :
  valid_binary x = true -> valid_binary y = true ->
  SF_finite x = true -> SF_finite y = true ->
  Z.abs (B2Z x - B2Z y) < 2 ^ 2097 ->
  let r := SFsub prec emax x y in
  SF_finite r = true /\ valid_binary r = true /\
  B2Z r = RN (B2Z x - B2Z y) /\
  (r = S754_zero true -> x = S754_zero true /\ y = S754_zero false).
Proof.
  intros Vx Vy Fx Fy Hn. cbv zeta.
  destruct x as [sx|sx| |sx mx ex]; try discriminate Fx;
  destruct y as [sy|sy| |sy my ey]; try discriminate Fy; clear Fx Fy.
  - destruct sx, sy; cbn; repeat split; try discriminate; reflexivity.
  - cbn [SFsub]. pose proof (RN_representable (S754_finite sy my ey) Vy) as HR.
    split; [reflexivity|]. split; [exact Vy|]. split; [|discriminate].
    change (B2Z (S754_zero sx)) with 0. rewrite Z.sub_0_l, RN_opp, HR.
    exact (B2Z_SFopp (S754_finite sy my ey)).
  - cbn [SFsub B2Z]. rewrite Z.sub_0_r.
    pose proof (RN_representable _ Vx) as HR. cbn [B2Z] in HR. rewrite HR.
    repeat split; try discriminate; exact Vx.
  - cbn [valid_binary] in Vx, Vy.
    pose proof (bounded_inv mx ex Vx) as (Hex & _ & _).
    pose proof (bounded_inv my ey Vy) as (Hey & _ & _).
    cbn [SFsub B2Z] in *.
    change (IntDef.Z.min ex ey) with (Z.min ex ey).
    set (ez := Z.min ex ey).
    pose proof (shl_align_spec mx ex ez ltac:(lia)) as [Hax _].
    pose proof (shl_align_spec my ey ez ltac:(lia)) as [Hay _].
    rewrite Hax, Hay.
    change (IntDef.Z.sub ?a ?b) with (a - b).
    set (M := cond_Zopp sx (Z.pos mx * 2 ^ (ex - ez)) -
              cond_Zopp sy (Z.pos my * 2 ^ (ey - ez))).
    assert (HM : cond_Zopp sx (Z.pos mx * 2 ^ (ex + 1074)) -
                 cond_Zopp sy (Z.pos my * 2 ^ (ey + 1074)) = M * 2 ^ (ez + 1074)).
    { unfold M. rewrite !cond_Zopp_eq.
      replace (ex + 1074) with ((ex - ez) + (ez + 1074)) by lia.
      replace (ey + 1074) with ((ey - ez) + (ez + 1074)) by lia.
      rewrite (Z.pow_add_r 2 (ex - ez)), (Z.pow_add_r 2 (ey - ez)) by lia.
      destruct sx, sy; ring. }
    rewrite HM in *. clearbody M.
    assert (HP : 0 < 2 ^ (ez + 1074)) by (apply Z.pow_pos_nonneg; lia).
    destruct M as [|pM|pM]; cbn [binary_normalize].
    + repeat split; try discriminate.
    + rewrite Z.abs_eq in Hn by lia.
      destruct (binary_round_spec false pM ez ltac:(lia) Hn) as (m' & e' & -> & Hb & Hv).
      cbn [SF_finite valid_binary B2Z cond_Zopp]. rewrite Hv.
      unfold RN. rewrite Z.sgn_pos, Z.abs_eq by lia.
      repeat split; try discriminate; try assumption. lia.
    + rewrite Z.abs_neq in Hn by lia.
      replace (- (Z.neg pM * 2 ^ (ez + 1074))) with (Z.pos pM * 2 ^ (ez + 1074)) in Hn by lia.
      destruct (binary_round_spec true pM ez ltac:(lia) Hn) as (m' & e' & -> & Hb & Hv).
      cbn [SF_finite valid_binary B2Z]. rewrite cond_Zopp_eq, Hv.
      unfold RN. rewrite Z.sgn_neg, Z.abs_neq by lia.
      replace (- (Z.neg pM * 2 ^ (ez + 1074))) with (Z.pos pM * 2 ^ (ez + 1074)) by lia.
      repeat split; try discriminate; try assumption; lia.
Qed.

(** ** Rounding is monotone *)

Lemma rne_mono (j a b : Z) : 0 <= j -> a <= b -> rne a j <= rne b j.
Proof.
  intros Hj Hab. unfold rne.
  assert (HP : 0 < 2 ^ j) by (apply Z.pow_pos_nonneg; lia).
  set (P := 2 ^ j) in *.
  pose proof (Z.div_mod a P ltac:(lia)) as Ha.
  pose proof (Z.div_mod b P ltac:(lia)) as Hb.
  pose proof (Z.mod_pos_bound a P HP) as Hra.
  pose proof (Z.mod_pos_bound b P HP) as Hrb.
  assert (Hq : a / P <= b / P) by (apply Z.div_le_mono; lia).
  destruct (Z.eq_dec (a / P) (b / P)) as [Heq|Hne].
  - rewrite Heq in *. 
    destruct (Z.compare_spec (2 * (a mod P)) P), (Z.compare_spec (2 * (b mod P)) P);
      destruct (Z.even (b / P)); lia.
  - destruct (Z.compare_spec (2 * (a mod P)) P), (Z.compare_spec (2 * (b mod P)) P);
      destruct (Z.even (a / P)), (Z.even (b / P)); lia.
Qed.

Lemma rnd_nonneg (n : Z) : 0 <= n -> 0 <= rnd n.
Proof.
  intros Hn. unfold rnd.
  assert (0 <= shift_of n) by (unfold shift_of; lia).
  assert (0 < 2 ^ shift_of n) by (apply Z.pow_pos_nonneg; lia).
  pose proof (rne_bounds n (shift_of n)).
  assert (0 <= n / 2 ^ shift_of n) by (apply Z.div_pos; lia).
  apply Z.mul_nonneg_nonneg; lia.
Qed.

Lemma rnd_0 : rnd 0 = 0.
Proof. reflexivity. Qed.

(** A positive magnitude rounds into the binade it lies in. *)
Lemma rnd_binade (n : Z) :
  0 < n -> 2 ^ Z.log2 n <= rnd n <= 2 ^ (Z.log2 n + 1).
Proof.
  intros Hn. pose proof (Z.log2_spec n Hn) as [Hlo Hhi].
  pose proof (Z.log2_nonneg n) as Hl.
  unfold rnd. set (k := shift_of n).
  assert (Hk : 0 <= k <= Z.log2 n) by (unfold k, shift_of; lia).
  assert (HP : 0 < 2 ^ k) by (apply Z.pow_pos_nonneg; lia).
  pose proof (rne_bounds n k) as Hr.
  split.
  - replace (Z.log2 n) with ((Z.log2 n - k) + k) at 1 by lia.
    rewrite Z.pow_add_r by lia.
    apply Z.mul_le_mono_nonneg_r; [lia|].
    apply Z.le_trans with (n / 2 ^ k); [|lia].
    apply Z.div_le_lower_bound; [lia|].
    rewrite Z.mul_comm, <- Z.pow_add_r by lia.
    replace (Z.log2 n - k + k) with (Z.log2 n) by lia. exact Hlo.
  - replace (Z.log2 n + 1) with ((Z.log2 n + 1 - k) + k) by lia.
    rewrite Z.pow_add_r by lia.
    apply Z.mul_le_mono_nonneg_r; [lia|].
    assert (n / 2 ^ k < 2 ^ (Z.log2 n + 1 - k)); [|lia].
    apply Z.div_lt_upper_bound; [lia|].
    rewrite <- Z.pow_add_r by lia.
    replace (k + (Z.log2 n + 1 - k)) with (Z.succ (Z.log2 n)) by lia. exact Hhi.
Qed.

Lemma rnd_mono (a b : Z) : 0 <= a <= b -> rnd a <= rnd b.
Proof.
  intros [Ha Hab].
  destruct (Z.eq_dec a 0) as [->|Ha0]; [rewrite rnd_0; apply rnd_nonneg; lia|].
  pose proof (Z.log2_le_mono a b Hab) as Hl.
  destruct (Z.eq_dec (shift_of a) (shift_of b)) as [Hk|Hk].
  - unfold rnd. rewrite Hk.
    assert (0 <= shift_of b) by (unfold shift_of; lia).
    apply Z.mul_le_mono_nonneg_r; [apply Z.pow_nonneg; lia|].
    apply rne_mono; lia.
  - assert (Hlt : Z.log2 a + 1 <= Z.log2 b) by (unfold shift_of in Hk; lia).
    pose proof (rnd_binade a ltac:(lia)) as [_ Hua].
    pose proof (rnd_binade b ltac:(lia)) as [Hlb _].
    apply Z.le_trans with (2 ^ (Z.log2 a + 1)); [exact Hua|].
    apply Z.le_trans with (2 ^ Z.log2 b); [|exact Hlb].
    apply Z.pow_le_mono_r; lia.
Qed.

Lemma RN_0 : RN 0 = 0.
Proof. reflexivity. Qed.

Lemma RN_pos (n : Z) : 0 < n -> RN n = rnd n.
Proof. intros Hn. unfold RN. rewrite Z.sgn_pos, Z.abs_eq by lia. lia. Qed.

Lemma RN_neg (n : Z) : n < 0 -> RN n = - rnd (- n).
Proof. intros Hn. unfold RN. rewrite Z.sgn_neg, Z.abs_neq by lia. lia. Qed.

Lemma RN_mono (a b : Z) : a <= b -> RN a <= RN b.
Proof.
  intros Hab.
  destruct (Z.lt_trichotomy a 0) as [Ha|[->|Ha]];
  destruct (Z.lt_trichotomy b 0) as [Hb|[->|Hb]]; try lia.
  - rewrite (RN_neg a Ha), (RN_neg b Hb).
    pose proof (rnd_mono (- b) (- a) ltac:(lia)). lia.
  - rewrite (RN_neg a Ha), RN_0.
    pose proof (rnd_nonneg (- a) ltac:(lia)). lia.
  - rewrite (RN_neg a Ha), (RN_pos b Hb).
    pose proof (rnd_nonneg (- a) ltac:(lia)). pose proof (rnd_nonneg b ltac:(lia)). lia.
  - rewrite RN_0, (RN_pos b Hb).
    pose proof (rnd_nonneg b ltac:(lia)). lia.
  - rewrite (RN_pos a Ha), (RN_pos b Hb).
    pose proof (rnd_mono a b ltac:(lia)). lia.
Qed.

Lemma RN_pow2 (k : Z) : 0 <= k -> RN (2 ^ k) = 2 ^ k.
Proof.
  intros Hk. assert (HP : 0 < 2 ^ k) by (apply Z.pow_pos_nonneg; lia).
  rewrite RN_pos by lia.
  unfold rnd, shift_of. rewrite Z.log2_pow2 by lia.
  set (s := Z.max (k + 1 - 53) 0).
  replace (2 ^ k) with (2 ^ (k - s) * 2 ^ s) at 1
    by (rewrite <- Z.pow_add_r by lia; f_equal; lia).
  rewrite rne_exact by lia.
  rewrite <- Z.pow_add_r by lia. f_equal. lia.
Qed.

(** Rounding keeps a value inside a power-of-two bound. *)
Lemma RN_bound (k n : Z) : 0 <= k -> Z.abs n <= 2 ^ k -> Z.abs (RN n) <= 2 ^ k.
Proof.
  intros Hk Hn.
  pose proof (RN_mono n (2 ^ k) ltac:(lia)) as Hu.
  pose proof (RN_mono (- 2 ^ k) n ltac:(lia)) as Hl.
  rewrite RN_opp in Hl. rewrite RN_pow2 in * by lia. lia.
Qed.

(** ** Primitive floats through their specification *)

Lemma ltb_F2Z (x y : float) :
  finite x -> finite y -> (x <? y)%float = (F2Z x <? F2Z y).
Proof.
  intros Fx Fy. rewrite ltb_spec. unfold SFltb.
  rewrite (SFcompare_B2Z _ _ (Prim2SF_valid x) (Prim2SF_valid y) Fx Fy).
  unfold Z.ltb, F2Z. destruct (_ ?= _); reflexivity.
Qed.

Lemma leb_F2Z (x y : float) :
  finite x -> finite y -> (x <=? y)%float = (F2Z x <=? F2Z y).
Proof.
  intros Fx Fy. rewrite leb_spec. unfold SFleb.
  rewrite (SFcompare_B2Z _ _ (Prim2SF_valid x) (Prim2SF_valid y) Fx Fy).
  unfold Z.leb, F2Z. destruct (_ ?= _); reflexivity.
Qed.

Lemma sub_F2Z (x y : float) :
  finite x -> finite y -> Z.abs (F2Z x - F2Z y) < 2 ^ 2097 ->
  finite (x - y) /\ F2Z (x - y) = RN (F2Z x - F2Z y) /\
  (Prim2SF (x - y) = S754_zero true -> Prim2SF x = S754_zero true).
Proof.
  intros Fx Fy Hn. unfold finite, F2Z in *. rewrite sub_spec.
  destruct (SFsub_spec _ _ (Prim2SF_valid x) (Prim2SF_valid y) Fx Fy Hn)
    as (Hf & _ & Hv & Hz).
  repeat split; try assumption. intros H0. apply Hz in H0. tauto.
Qed.

(** Order facts that hold for all floats, NaN and infinities included. *)
Lemma ltb_leb (x y : float) : (x <? y)%float = true -> (x <=? y)%float = true.
Proof.
  rewrite ltb_spec, leb_spec. unfold SFltb, SFleb.
  destruct (SFcompare _ _) as [[]|]; intros; congruence.
Qed.

Lemma SFcompare_antisym (x y : spec_float) (c : comparison) :
  SFcompare x y = Some c -> SFcompare y x = Some (CompOpp c).
Proof.
  destruct x as [sx|sx| |sx mx ex], y as [sy|sy| |sy my ey]; cbn [SFcompare];
    try discriminate; intros [= <-];
    try (destruct sx; reflexivity); try (destruct sy; reflexivity);
    try (destruct sx, sy; reflexivity); try reflexivity.
  change (IntDef.Z.compare ?a ?b) with (a ?= b).
  change (PosDef.Pos.compare_cont ?c ?a ?b) with (Pos.compare_cont c a b).
  pose proof (Pos.compare_cont_antisym mx my Eq) as Hp. cbn [CompOpp] in Hp.
  rewrite (Z.compare_antisym ex ey), <- Hp.
  destruct sx, sy; try reflexivity; destruct (ex ?= ey);
    cbn [CompOpp]; try reflexivity;
    destruct (Pos.compare_cont Eq mx my); reflexivity.
Qed.

Lemma ltb_antisym (x y : float) : (x <? y)%float = true -> (y <? x)%float = false.
Proof.
  rewrite !ltb_spec. unfold SFltb.
  destruct (SFcompare (Prim2SF x) (Prim2SF y)) as [c|] eqn:Hc; [|discriminate].
  rewrite (SFcompare_antisym _ _ _ Hc). destruct c; cbn; congruence.
Qed.

Lemma leb_0_1_finite (x : float) :
  (0 <=? x)%float = true -> (x <=? 1)%float = true ->
  finite x /\ 0 <= F2Z x <= 2 ^ 1074.
Proof.
  intros H0 H1.
  assert (Fx : finite x).
  { unfold finite. rewrite leb_spec in H0, H1. unfold SFleb in *.
    destruct (Prim2SF x) as [s|[]| |s m e]; try reflexivity;
      cbn in H0, H1; discriminate. }
  split; [exact Fx|].
  rewrite leb_F2Z in H0, H1 by (assumption || reflexivity).
  apply Z.leb_le in H0, H1. 
  change (F2Z 0) with 0 in H0. change (F2Z 1) with (2 ^ 1074) in H1. lia.
Qed.

End Binary64.

(** * Clamping and the order of primitive floats *)

Section FloatOrder.
Local Open Scope Z_scope.

Lemma eqb_F2Z (x y : float) :
  finite x -> finite y -> (x =? y)%float = (F2Z x =? F2Z y).
Proof.
  intros Fx Fy. rewrite FloatAxioms.eqb_spec. unfold SFeqb.
  rewrite (SFcompare_B2Z _ _ (Prim2SF_valid x) (Prim2SF_valid y) Fx Fy).
  unfold F2Z.
  destruct (Z.compare_spec (B2Z (Prim2SF x)) (B2Z (Prim2SF y))); symmetry;
    [apply Z.eqb_eq; assumption|apply Z.eqb_neq; lia|apply Z.eqb_neq; lia].
Qed.

(** A valid nonzero finite float has a nonzero scaled value. *)
Lemma B2Z_finite_nonzero (s : bool) (m : positive) (e : Z) :
  bounded prec emax m e = true -> B2Z (S754_finite s m e) <> 0.
Proof.
  intros Hb. pose proof (bounded_inv m e Hb) as (He & _ & _).
  cbn [B2Z]. rewrite cond_Zopp_eq.
  assert (0 < Zpos m * 2 ^ (e + 1074))
    by (apply Z.mul_pos_pos; [lia|apply Z.pow_pos_nonneg; lia]).
  destruct s; lia.
Qed.

(** Floats with the same nonzero scaled value are the same float. *)
Lemma F2Z_inj (x y : float) :
  finite x -> finite y -> F2Z x = F2Z y -> F2Z x <> 0 -> x = y.
Proof.
  intros Fx Fy Heq Hnz. apply Prim2SF_inj.
  pose proof (SFcompare_B2Z _ _ (Prim2SF_valid x) (Prim2SF_valid y) Fx Fy) as Hc.
  unfold F2Z, finite in *. rewrite Heq, Z.compare_refl in Hc.
  rewrite Heq in Hnz.
  destruct (Prim2SF x) as [sx|sx| |sx mx ex]; try discriminate Fx;
    [exfalso; apply Hnz; rewrite <- Heq; reflexivity|].
  destruct (Prim2SF y) as [sy|sy| |sy my ey]; try discriminate Fy;
    [exfalso; apply Hnz; reflexivity|].
  cbn [SFcompare] in Hc.
  change (IntDef.Z.compare ?a ?b) with (a ?= b) in Hc.
  change (PosDef.Pos.compare_cont ?c ?a ?b) with (Pos.compare_cont c a b) in Hc.
  destruct sx, sy; try discriminate Hc;
    destruct (Z.compare_spec ex ey) as [->|?|?]; try discriminate Hc;
    injection Hc as Hc;
    destruct (Pos.compare_cont Eq mx my) eqn:Hm; try discriminate Hc;
    apply Pos.compare_eq in Hm; subst; reflexivity.
Qed.

(** A finite float with scaled value 0 that is not the negative zero is
    the positive zero. *)
Lemma F2Z_zero (x : float) :
  finite x -> F2Z x = 0 -> Prim2SF x <> S754_zero true -> x = 0%float.
Proof.
  intros Fx H0 Hnz. apply Prim2SF_inj.
  pose proof (Prim2SF_valid x) as Vx. unfold F2Z, finite in *.
  destruct (Prim2SF x) as [[]|sx| |sx mx ex]; try discriminate Fx.
  - congruence.
  - reflexivity.
  - exfalso. exact (B2Z_finite_nonzero sx mx ex Vx H0).
Qed.

(** The clamp of the handlers, on scaled values. *)
Lemma py_clamp_F2Z (s : float) :
  finite s ->
  finite (py_max 0 (py_min 1 s)) /\
  F2Z (py_max 0 (py_min 1 s)) = Z.max 0 (Z.min (2 ^ 1074) (F2Z s)).
Proof.
  intros Fs. unfold py_min.
  rewrite (ltb_F2Z s 1 Fs eq_refl). change (F2Z 1) with (2 ^ 1074).
  destruct (Z.ltb_spec (F2Z s) (2 ^ 1074)) as [Hlt|Hge]; unfold py_max.
  - rewrite (ltb_F2Z 0 s eq_refl Fs). change (F2Z 0) with 0.
    destruct (Z.ltb_spec 0 (F2Z s)); split; try assumption; try reflexivity;
      change (F2Z 0) with 0; lia.
  - change (0 <? 1)%float with true. cbv iota. split; [reflexivity|].
    change (F2Z 1) with (2 ^ 1074). lia.
Qed.

(** The two clamps agree on finite scores other than the negative zero. *)
Lemma clamp_py_clamp (s : float) :
  finite s -> Prim2SF s <> S754_zero true ->
  Spec.clamp s = py_max 0 (py_min 1 s).
Proof.
  intros Fs Hnz. unfold Spec.clamp, py_min, py_max.
  rewrite (ltb_F2Z s 0 Fs eq_refl), (ltb_F2Z 1 s eq_refl Fs),
    (ltb_F2Z s 1 Fs eq_refl).
  change (F2Z 0) with 0. change (F2Z 1) with (2 ^ 1074).
  destruct (Z.ltb_spec (F2Z s) 0) as [Hneg|Hnn].
  - destruct (Z.ltb_spec (F2Z s) (2 ^ 1074)); [|lia].
    rewrite (ltb_F2Z 0 s eq_refl Fs). change (F2Z 0) with 0.
    destruct (Z.ltb_spec 0 (F2Z s)); [lia|reflexivity].
  - destruct (Z.ltb_spec (2 ^ 1074) (F2Z s)) as [Hgt|Hle].
    + destruct (Z.ltb_spec (F2Z s) (2 ^ 1074)); [lia|]. reflexivity.
    + destruct (Z.ltb_spec (F2Z s) (2 ^ 1074)) as [Hlt|Hge].
      * rewrite (ltb_F2Z 0 s eq_refl Fs). change (F2Z 0) with 0.
        destruct (Z.ltb_spec 0 (F2Z s)); [reflexivity|].
        apply F2Z_zero; [assumption|lia|assumption].
      * change (0 <? 1)%float with true. cbv iota.
        apply F2Z_inj; [assumption|reflexivity| |].
        -- change (F2Z 1) with (2 ^ 1074). lia.
        -- assert (0 < 2 ^ 1074) by reflexivity. lia.
Qed.

Lemma ltb_0_ltb_1 (f : float) : (f <? 0)%float = true -> (f <? 1)%float = true.
Proof.
  rewrite !ltb_spec. unfold SFltb.
  change (Prim2SF 0) with (S754_zero false).
  change (Prim2SF 1) with (S754_finite false 4503599627370496 (-52)).
  destruct (Prim2SF f) as [s|[]| |[] m e]; cbn [SFcompare];
    intros Hlt; try discriminate Hlt; reflexivity.
Qed.

(** The handlers' clamp is a clamp, for every float (a NaN goes to 1.0). *)
Lemma py_clamp_clamped (f : float) : Spec.clamped f (py_max 0 (py_min 1 f)).
Proof.
  unfold Spec.clamped. repeat split.
  - unfold py_min. destruct (f <? 1)%float eqn:H1; unfold py_max.
    + destruct (0 <? f)%float eqn:H0; [apply ltb_leb, H0|reflexivity].
    + reflexivity.
  - unfold py_min. destruct (f <? 1)%float eqn:H1; unfold py_max.
    + destruct (0 <? f)%float eqn:H0; [apply ltb_leb, H1|reflexivity].
    + reflexivity.
  - intros Hneg. unfold py_min. rewrite (ltb_0_ltb_1 f Hneg).
    unfold py_max. rewrite (ltb_antisym f 0 Hneg). reflexivity.
  - intros Hgt. unfold py_min. rewrite (ltb_antisym 1 f Hgt). reflexivity.
  - intros H0 H1. destruct (leb_0_1_finite f H0 H1) as [Ff Hb].
    destruct (py_clamp_F2Z f Ff) as [Fc Hc].
    rewrite (eqb_F2Z _ _ Fc Ff), Hc. apply Z.eqb_eq. lia.
Qed.

(** ** The chain of deductions on scaled values *)

Lemma within_weaken (k k' : Z) (x : float) :
  0 <= k <= k' -> within k x -> within k' x.
Proof.
  intros Hk [Fx Hx]. split; [exact Fx|].
  apply Z.le_trans with (2 ^ k); [exact Hx|]. apply Z.pow_le_mono_r; lia.
Qed.

Lemma within_share (x : float) :
  (0 <=? x)%float = true -> (x <=? 1)%float = true -> within 1074 x.
Proof.
  intros H0 H1. destruct (leb_0_1_finite x H0 H1) as [Fx Hb].
  split; [exact Fx|]. lia.
Qed.

(** One subtraction inside the range: finite, rounded exact difference, and
    not the negative zero unless the minuend was. *)
Lemma sub_within (k : Z) (x y : float) :
  0 <= k <= 2090 -> within k x -> within k y ->
  within (k + 1) (x - y) /\
  F2Z (x - y) = RN (F2Z x - F2Z y) /\
  (Prim2SF (x - y) = S754_zero true -> Prim2SF x = S754_zero true).
Proof.
  intros Hk [Fx Hx] [Fy Hy].
  assert (Hsum : Z.abs (F2Z x - F2Z y) <= 2 ^ (k + 1)).
  { rewrite Z.pow_add_r by lia. change (2 ^ 1) with 2. lia. }
  assert (Hlt : Z.abs (F2Z x - F2Z y) < 2 ^ 2097).
  { apply Z.le_lt_trans with (2 ^ (k + 1)); [exact Hsum|].
    apply Z.pow_lt_mono_r; lia. }
  destruct (sub_F2Z x y Fx Fy Hlt) as (Fr & Hv & Hz).
  repeat split; try assumption.
  rewrite Hv. apply RN_bound; [lia|exact Hsum].
Qed.

Lemma deduct_within (k : Z) (s : float) (d : bool * float) :
  1074 <= k <= 2090 -> within k s -> within 1074 d.2 ->
  within (k + 1) (Spec.deduct s d).
Proof.
  intros Hk Hs Hd. unfold Spec.deduct. destruct d.1.
  - apply sub_within; [lia|exact Hs|].
    apply (within_weaken 1074); [lia|exact Hd].
  - apply (within_weaken k); [lia|exact Hs].
Qed.

Lemma deduct_mono (k : Z) (s s' : float) (d : bool * float) :
  1074 <= k <= 2090 -> within k s -> within k s' -> within 1074 d.2 ->
  F2Z s <= F2Z s' ->
  F2Z (Spec.deduct s d) <= F2Z (Spec.deduct s' d).
Proof.
  intros Hk Hs Hs' Hd Hle. unfold Spec.deduct. destruct d.1; [|exact Hle].
  assert (Hd' : within k d.2) by (apply (within_weaken 1074); [lia|exact Hd]).
  destruct (sub_within k s d.2 ltac:(lia) Hs Hd') as (_ & -> & _).
  destruct (sub_within k s' d.2 ltac:(lia) Hs' Hd') as (_ & -> & _).
  apply RN_mono. lia.
Qed.

Lemma deduct_not_negzero (k : Z) (s : float) (d : bool * float) :
  1074 <= k <= 2090 -> within k s -> within 1074 d.2 ->
  Prim2SF s <> S754_zero true ->
  Prim2SF (Spec.deduct s d) <> S754_zero true.
Proof.
  intros Hk Hs Hd Hnz. unfold Spec.deduct. destruct d.1; [|exact Hnz].
  assert (Hd' : within k d.2) by (apply (within_weaken 1074); [lia|exact Hd]).
  destruct (sub_within k s d.2 ltac:(lia) Hs Hd') as (_ & _ & Hz).
  intros H0. exact (Hnz (Hz H0)).
Qed.

(** The same along a list of deductions whose amounts are at most 1. *)
Lemma fold_deduct_within (ds : list (bool * float)) (k : Z) (s : float) :
  1074 <= k -> k + Z.of_nat (length ds) <= 2091 ->
  Forall (fun d => within 1074 d.2) ds -> within k s ->
  within (k + Z.of_nat (length ds)) (fold_left Spec.deduct ds s).
Proof.
  revert k s. induction ds as [|d ds IH]; intros k s Hk Hlen Hds Hs.
  - cbn [fold_left length]. rewrite Z.add_0_r. exact Hs.
  - apply Forall_cons in Hds as [Hd Hds].
    cbn [fold_left length] in *. rewrite Nat2Z.inj_succ in *.
    replace (k + Z.succ (Z.of_nat (length ds)))
      with ((k + 1) + Z.of_nat (length ds)) by lia.
    apply IH; [lia|lia|exact Hds|].
    apply deduct_within; [lia|exact Hs|exact Hd].
Qed.

Lemma fold_deduct_mono (ds : list (bool * float)) (k : Z) (s s' : float) :
  1074 <= k -> k + Z.of_nat (length ds) <= 2091 ->
  Forall (fun d => within 1074 d.2) ds -> within k s -> within k s' ->
  F2Z s <= F2Z s' ->
  F2Z (fold_left Spec.deduct ds s) <= F2Z (fold_left Spec.deduct ds s').
Proof.
  revert k s s'. induction ds as [|d ds IH]; intros k s s' Hk Hlen Hds Hs Hs' Hle.
  - exact Hle.
  - apply Forall_cons in Hds as [Hd Hds].
    cbn [fold_left length] in *. rewrite Nat2Z.inj_succ in *.
    apply (IH (k + 1)); [lia|lia|exact Hds| | |].
    + apply deduct_within; [lia|exact Hs|exact Hd].
    + apply deduct_within; [lia|exact Hs'|exact Hd].
    + apply (deduct_mono k); try assumption; lia.
Qed.

Lemma fold_deduct_not_negzero (ds : list (bool * float)) (k : Z) (s : float) :
  1074 <= k -> k + Z.of_nat (length ds) <= 2091 ->
  Forall (fun d => within 1074 d.2) ds -> within k s ->
  Prim2SF s <> S754_zero true ->
  Prim2SF (fold_left Spec.deduct ds s) <> S754_zero true.
Proof.
  revert k s. induction ds as [|d ds IH]; intros k s Hk Hlen Hds Hs Hnz.
  - exact Hnz.
  - apply Forall_cons in Hds as [Hd Hds].
    cbn [fold_left length] in *. rewrite Nat2Z.inj_succ in *.
    apply (IH (k + 1)); [lia|lia|exact Hds| |].
    + apply deduct_within; [lia|exact Hs|exact Hd].
    + apply (deduct_not_negzero k); try assumption; lia.
Qed.

(** ** The raw score of a valid FeatureSet *)

Lemma within_literal (c : float) :
  SF_finite (Prim2SF c) = true -> (Z.abs (F2Z c) <=? 2 ^ 1074) = true ->
  within 1074 c.
Proof. intros Hf Hb. split; [exact Hf|apply Z.leb_le, Hb]. Qed.

Lemma deductions_tail_within (fs : QualityRequest.t) :
  Forall (fun d : bool * float => within 1074 d.2) (tail (Spec.deductions fs)).
Proof.
  unfold Spec.deductions. cbn [tail].
  repeat apply Forall_cons_2; try apply Forall_nil_2; cbn [snd];
    apply within_literal; vm_compute; reflexivity.
Qed.

Lemma deductions_tail_same (a b : QualityRequest.t) :
  Spec.same_counts a b -> tail (Spec.deductions a) = tail (Spec.deductions b).
Proof.
  intros (H1 & H2 & H3 & H4). unfold Spec.deductions. cbn [tail].
  rewrite H1, H2, H3, H4. reflexivity.
Qed.

Lemma raw_score_unfold (fs : QualityRequest.t) :
  Spec.raw_score fs =
  fold_left Spec.deduct (tail (Spec.deductions fs))
    (1 - QualityRequest.max_missing_share fs)%float.
Proof. reflexivity. Qed.

(** The first deduction: [1.0 - max_missing_share]. *)
Lemma one_minus_share (x : float) :
  within 1074 x ->
  within 1075 (1 - x) /\ F2Z (1 - x)%float = RN (2 ^ 1074 - F2Z x) /\
  Prim2SF (1 - x) <> S754_zero true.
Proof.
  intros Hx.
  assert (H1 : within 1074 1) by (apply within_literal; vm_compute; reflexivity).
  destruct (sub_within 1074 1 x ltac:(lia) H1 Hx) as (Hw & Hv & Hz).
  repeat split; try apply Hw; [exact Hv|].
  intros H0. apply Hz in H0. discriminate H0.
Qed.

Lemma raw_score_within (fs : QualityRequest.t) :
  Spec.valid_share fs ->
  finite (Spec.raw_score fs) /\ Prim2SF (Spec.raw_score fs) <> S754_zero true.
Proof.
  intros [H0 H1]. pose proof (within_share _ H0 H1) as Hx.
  destruct (one_minus_share _ Hx) as (Hw & _ & Hnz).
  pose proof (deductions_tail_within fs) as Hds.
  rewrite raw_score_unfold. split.
  - apply (fold_deduct_within _ 1075 _ ltac:(lia)); [cbn; lia|exact Hds|exact Hw].
  - apply (fold_deduct_not_negzero _ 1075 _ ltac:(lia));
      [cbn; lia|exact Hds|exact Hw|exact Hnz].
Qed.

Lemma raw_score_antitone (a b : QualityRequest.t) :
  Spec.same_counts a b -> Spec.valid_share a -> Spec.valid_share b ->
  (QualityRequest.max_missing_share a <=? QualityRequest.max_missing_share b)%float = true ->
  F2Z (Spec.raw_score b) <= F2Z (Spec.raw_score a).
Proof.
  intros Hsame [Ha0 Ha1] [Hb0 Hb1] Hle.
  pose proof (within_share _ Ha0 Ha1) as Hxa.
  pose proof (within_share _ Hb0 Hb1) as Hxb.
  rewrite (leb_F2Z _ _ (proj1 Hxa) (proj1 Hxb)) in Hle. apply Z.leb_le in Hle.
  destruct (one_minus_share _ Hxa) as (Hwa & Hva & _).
  destruct (one_minus_share _ Hxb) as (Hwb & Hvb & _).
  rewrite !raw_score_unfold, (deductions_tail_same a b Hsame).
  apply (fold_deduct_mono _ 1075); [lia|cbn; lia| | | |].
  - apply deductions_tail_within.
  - exact Hwb.
  - exact Hwa.
  - rewrite Hva, Hvb. apply RN_mono. lia.
Qed.
End FloatOrder.

(** * Running the handlers *)

Section ReadUpload.
Context `{Core}.
Variables (endpoint : string) (start : float) (file : UploadFile.t) (w : world).

Lemma read_upload_bad_type :
  UploadFile.content_type file ∉ accepted_content_types ->
  read_upload endpoint start file w =
    (Raise (HTTPException 400 detail_content_type),
     record_event (Logged (error_record endpoint (latency_since start w) w)) (tick w)).
Proof.
  intros Hct. unfold read_upload.
  rewrite (bool_decide_eq_false_2 _ Hct). reflexivity.
Qed.

Lemma read_upload_unreadable (msg : string) :
  UploadFile.content_type file ∈ accepted_content_types ->
  read_csv (UploadFile.file file) = inl msg ->
  read_upload endpoint start file w =
    (Raise (HTTPException 400 (detail_unreadable (Exception msg))),
     record_event (Logged (error_record endpoint (latency_since start w) w))
       (tick (record_event (ReadCsv (UploadFile.file file)) w))).
Proof.
  intros Hct Hread. unfold read_upload, pd_read_csv.
  rewrite (bool_decide_eq_true_2 _ Hct). run_monad.
  rewrite Hread. reflexivity.
Qed.

Lemma read_upload_empty (df : DataFrame) :
  UploadFile.content_type file ∈ accepted_content_types ->
  read_csv (UploadFile.file file) = inr df ->
  DataFrame_empty df = true ->
  read_upload endpoint start file w =
    (Raise (HTTPException 400 detail_empty),
     record_event (Logged (error_record endpoint (latency_since start w) w))
       (tick (record_event (ReadCsv (UploadFile.file file)) w))).
Proof.
  intros Hct Hread Hempty. unfold read_upload, pd_read_csv.
  rewrite (bool_decide_eq_true_2 _ Hct). run_monad.
  rewrite Hread, Hempty. reflexivity.
Qed.

Lemma read_upload_ok (df : DataFrame) :
  UploadFile.content_type file ∈ accepted_content_types ->
  read_csv (UploadFile.file file) = inr df ->
  DataFrame_empty df = false ->
  read_upload endpoint start file w =
    (Return df, record_event (ReadCsv (UploadFile.file file)) w).
Proof.
  intros Hct Hread Hempty. unfold read_upload, pd_read_csv.
  rewrite (bool_decide_eq_true_2 _ Hct). run_monad.
  rewrite Hread, Hempty. reflexivity.
Qed.

(** The four cases above are all there is. *)
Lemma read_upload_cases :
  (UploadFile.content_type file ∉ accepted_content_types) \/
  (UploadFile.content_type file ∈ accepted_content_types /\
   ((exists msg, read_csv (UploadFile.file file) = inl msg) \/
    (exists df, read_csv (UploadFile.file file) = inr df /\
                DataFrame_empty df = true) \/
    (exists df, read_csv (UploadFile.file file) = inr df /\
                DataFrame_empty df = false))).
Proof.
  destruct (decide (UploadFile.content_type file ∈ accepted_content_types))
    as [Hct|Hct]; [right; split; [exact Hct|] | left; exact Hct].
  destruct (read_csv (UploadFile.file file)) as [msg|df] eqn:Hread.
  - left. eauto.
  - destruct (DataFrame_empty df) eqn:Hempty; eauto.
Qed.

End ReadUpload.

Section HandlerRuns.
Context `{Core}.
Variables (file : UploadFile.t) (w : world).

(** Both CSV handlers read the clock once and enter the [try] block. *)
Lemma quality_from_csv_Raise (e : exn) (w' : world) :
  read_upload "/quality-from-csv" (clock w (ticks w)) file (tick w)
    = (Raise e, w') ->
  quality_from_csv file w = (Raise e, w').
Proof.
  intros Hrun. unfold quality_from_csv. run_monad.
  rewrite Hrun. reflexivity.
Qed.

Lemma quality_flags_from_csv_Raise (e : exn) (w' : world) :
  read_upload "/quality-flags-from-csv" (clock w (ticks w)) file (tick w)
    = (Raise e, w') ->
  quality_flags_from_csv file w = (Raise e, w').
Proof.
  intros Hrun. unfold quality_flags_from_csv. run_monad.
  rewrite Hrun. reflexivity.
Qed.
End HandlerRuns.

(** * Ingestion failures *)

Section IngestionFailures.
Context `{Core}.
Variables (file : UploadFile.t) (w : world).

Lemma logged_app (l1 l2 : list event) : logged (l1 ++ l2) = logged l1 ++ logged l2.
Proof. unfold logged. apply omap_app. Qed.

(** No key of a formatted record is bound to [None]. *)
Lemma JSONFormatter_format_no_null (record : LogRecord) (utcnow k : string) :
  JSONFormatter_format record utcnow !! k <> Some VNone.
Proof.
  unfold JSONFormatter_format. intros Hk.
  apply map_lookup_filter_Some in Hk as [_ Hk]. exact Hk.
Qed.

(** An error record serialises to exactly five fields. *)
Lemma JSONFormatter_format_error_record
    (endpoint : string) (latency : float) (utcnow k : string) :
  JSONFormatter_format (error_record endpoint latency w) utcnow !! k =
    if decide (k = "endpoint") then Some (VStr endpoint)
    else if decide (k = "status") then Some (VStr "error")
    else if decide (k = "latency_ms") then Some (VFloat latency)
    else if decide (k = "timestamp") then Some (VStr (utcnow ++ "Z"))
    else if decide (k = "request_id") then Some (VStr (request_id_var w))
    else None.
Proof.
  unfold JSONFormatter_format, error_record; cbn [rec_endpoint rec_status
    rec_latency_ms rec_ok_for_model rec_n_rows rec_n_cols rec_request_id
    opt_value].
  rewrite map_lookup_filter, !lookup_insert, lookup_empty.
  repeat case_decide; subst; try congruence; reflexivity.
Qed.
End IngestionFailures.

Section IngestionFailureTheorems.
Context `{Core}.
Variables (file : UploadFile.t) (w : world).

(** C5. A content type outside the accepted tuple makes both CSV handlers
    raise [HTTPException(400)] with the content-type detail; the only
    event of the run is the error record, so [pd.read_csv] was not called. *)
Theorem invalid_content_type_rejected_before_parse :
  UploadFile.content_type file ∉ accepted_content_types ->
  (client_error (quality_from_csv file w) w detail_content_type
     [Logged (error_record "/quality-from-csv" (elapsed_ms w) w)] /\
   csv_reads (journal (quality_from_csv file w).2) = csv_reads (journal w)) /\
  (client_error (quality_flags_from_csv file w) w detail_content_type
     [Logged (error_record "/quality-flags-from-csv" (elapsed_ms w) w)] /\
   csv_reads (journal (quality_flags_from_csv file w).2) = csv_reads (journal w)).
Proof.
  intros Hct. split.
  - rewrite (quality_from_csv_Raise _ _ _ _
               (read_upload_bad_type _ _ _ (tick w) Hct)).
    unfold client_error, csv_reads; cbn [fst snd journal record_event tick].
    rewrite omap_app, app_nil_r. auto.
  - rewrite (quality_flags_from_csv_Raise _ _ _ _
               (read_upload_bad_type _ _ _ (tick w) Hct)).
    unfold client_error, csv_reads; cbn [fst snd journal record_event tick].
    rewrite omap_app, app_nil_r. auto.
Qed.

(** C6. When the accepted upload parses into a frame with zero rows, both
    CSV handlers raise [HTTPException(400)] with the empty-data detail,
    whatever the number of columns. *)
Theorem empty_dataset_rejected (df : DataFrame) :
  UploadFile.content_type file ∈ accepted_content_types ->
  read_csv (UploadFile.file file) = inr df ->
  (shape df).1 = 0%Z ->
  (quality_from_csv file w).1 = Raise (HTTPException 400 detail_empty) /\
  (quality_flags_from_csv file w).1 = Raise (HTTPException 400 detail_empty).
Proof.
  intros Hct Hread Hrows.
  assert (Hempty : DataFrame_empty df = true).
  { unfold DataFrame_empty. rewrite Hrows. reflexivity. }
  split.
  - rewrite (quality_from_csv_Raise _ _ _ _
               (read_upload_empty _ _ _ (tick w) df Hct Hread Hempty)).
    reflexivity.
  - rewrite (quality_flags_from_csv_Raise _ _ _ _
               (read_upload_empty _ _ _ (tick w) df Hct Hread Hempty)).
    reflexivity.
Qed.

Lemma logged_foldl_record_event (evs : list event) (w0 : world) :
  logged evs = [] ->
  logged (journal (foldl (fun w1 ev => record_event ev w1) w0 evs))
  = logged (journal w0).
Proof.
  revert w0. induction evs as [|ev evs' IH]; intros w0 Hevs; [reflexivity|].
  cbn [foldl]. destruct ev as [f|r]; [|discriminate Hevs].
  rewrite (IH _ Hevs). cbn [journal record_event].
  rewrite logged_app. apply app_nil_r.
Qed.

Lemma error_record_is_one_error_record {A : Type}
    (run : outcome A * world) (endpoint detail : string) (evs : list event) :
  logged evs = [] ->
  run = (Raise (HTTPException 400 detail),
         record_event (Logged (error_record endpoint (elapsed_ms w) (tick w)))
           (tick (foldl (fun w0 ev => record_event ev w0) (tick w) evs))) ->
  one_error_record run w endpoint.
Proof.
  intros Hevs ->. exists detail, (error_record endpoint (elapsed_ms w) (tick w)).
  cbn [fst snd]. split; [reflexivity|]. split.
  - cbn [journal record_event tick]. rewrite logged_app. f_equal.
    apply (logged_foldl_record_event evs (tick w) Hevs).
  - repeat split; intros; try apply JSONFormatter_format_no_null;
      rewrite JSONFormatter_format_error_record; reflexivity.
Qed.

(** C7. Each of the three ingestion failures makes both CSV handlers hand
    exactly one record to the logger before raising: status [error], the
    latency read at the failure point, and a serialised form in which
    [ok_for_model], [n_rows] and [n_cols] are absent (no field is null). *)
Theorem ingestion_failure_logs_one_error_record :
  ingestion_failure file ->
  one_error_record (quality_from_csv file w) w "/quality-from-csv" /\
  one_error_record (quality_flags_from_csv file w) w "/quality-flags-from-csv".
Proof.
  intros [Hct | msg Hct Hread | df Hct Hread Hempty]; split.
  - rewrite (quality_from_csv_Raise _ _ _ _
               (read_upload_bad_type "/quality-from-csv" _ _ (tick w) Hct)).
    apply (error_record_is_one_error_record _ _ detail_content_type []);
      reflexivity.
  - rewrite (quality_flags_from_csv_Raise _ _ _ _
               (read_upload_bad_type "/quality-flags-from-csv" _ _ (tick w) Hct)).
    apply (error_record_is_one_error_record _ _ detail_content_type []);
      reflexivity.
  - rewrite (quality_from_csv_Raise _ _ _ _
               (read_upload_unreadable "/quality-from-csv" _ _ (tick w) msg Hct Hread)).
    eapply (error_record_is_one_error_record _ _ _ [ReadCsv (UploadFile.file file)]);
      reflexivity.
  - rewrite (quality_flags_from_csv_Raise _ _ _ _
               (read_upload_unreadable "/quality-flags-from-csv" _ _ (tick w) msg Hct Hread)).
    eapply (error_record_is_one_error_record _ _ _ [ReadCsv (UploadFile.file file)]);
      reflexivity.
  - rewrite (quality_from_csv_Raise _ _ _ _
               (read_upload_empty "/quality-from-csv" _ _ (tick w) df Hct Hread Hempty)).
    eapply (error_record_is_one_error_record _ _ _ [ReadCsv (UploadFile.file file)]);
      reflexivity.
  - rewrite (quality_flags_from_csv_Raise _ _ _ _
               (read_upload_empty "/quality-flags-from-csv" _ _ (tick w) df Hct Hread Hempty)).
    eapply (error_record_is_one_error_record _ _ _ [ReadCsv (UploadFile.file file)]);
      reflexivity.
Qed.
End IngestionFailureTheorems.

(** * [POST /quality]: score, verdict and flags *)

Section Quality.
Variables (req : QualityRequest.t) (w : world).

(** The handler always returns; its fields, in the order it computes them. *)
Lemma quality_run :
  exists (resp : QualityResponse.t) (w' : world) (fl : gmap string bool),
    quality req w = (Return resp, w') /\
    QualityResponse.quality_score resp = py_max 0 (py_min 1 (Spec.raw_score req)) /\
    QualityResponse.ok_for_model resp
      = (0.7 <=? QualityResponse.quality_score resp)%float /\
    QualityResponse.message resp
      = (if QualityResponse.ok_for_model resp
         then msg_quality_ok else msg_quality_bad) /\
    QualityResponse.flags resp = Some fl /\
    (forall k : string, fl !! k = Spec.flag req k) /\
    QualityResponse.dataset_shape resp
      = Some (shape_dict (QualityRequest.n_rows req, QualityRequest.n_cols req)).
Proof.
  unfold quality. run_monad.
  eexists _, _, _. split; [reflexivity|].
  cbn [QualityResponse.quality_score QualityResponse.ok_for_model
       QualityResponse.message QualityResponse.flags
       QualityResponse.dataset_shape].
  repeat split.
  intros k. unfold Spec.flag.
  rewrite !lookup_insert, lookup_empty.
  repeat case_decide; subst; try congruence; reflexivity.
Qed.
End Quality.

(** The specification's second example: 500 clean rows score 0.8 and pass. *)
Example quality_small_clean :
  exists (resp : QualityResponse.t) (w' : world) (fl : gmap string bool),
    quality small_clean idle_world = (Return resp, w') /\
    QualityResponse.quality_score resp = 0.8%float /\
    QualityResponse.ok_for_model resp = true /\
    QualityResponse.flags resp = Some fl /\
    fl !! "too_few_rows" = Some true /\
    fl !! "too_many_missing" = Some false.
Proof.
  destruct (quality_run small_clean idle_world)
    as (resp & w' & fl & Hrun & Hscore & Hok & _ & Hfl & Hk & _).
  exists resp, w', fl. rewrite Hok, Hscore, !Hk.
  repeat split; try assumption; reflexivity.
Qed.

(** The threshold is closed: a share of 0.3 on a large table scores exactly
    0.7 and passes. *)
Example quality_threshold :
  exists (resp : QualityResponse.t) (w' : world),
    quality threshold_case idle_world = (Return resp, w') /\
    QualityResponse.quality_score resp = 0.7%float /\
    QualityResponse.ok_for_model resp = true.
Proof.
  destruct (quality_run threshold_case idle_world)
    as (resp & w' & fl & Hrun & Hscore & Hok & _).
  exists resp, w'. rewrite Hok, Hscore.
  repeat split; try assumption; reflexivity.
Qed.

(** C1. For a FeatureSet with [max_missing_share] in [[0, 1]], [quality]
    returns, and its score is the specification's deduction sequence (start
    at 1.0, subtract the share, then the four conditional penalties, clamp);
    the score lies in [[0, 1]], [ok_for_model] is [score >= 0.7], and the
    message is the one of the two fixed strings that [ok_for_model] picks. *)
Theorem quality_score_follows_spec (req : QualityRequest.t) (w : world) :
  Spec.valid_share req ->
  exists (resp : QualityResponse.t) (w' : world),
    quality req w = (Return resp, w') /\
    QualityResponse.quality_score resp = Spec.score req /\
    (0 <=? QualityResponse.quality_score resp)%float = true /\
    (QualityResponse.quality_score resp <=? 1)%float = true /\
    QualityResponse.ok_for_model resp
      = (0.7 <=? QualityResponse.quality_score resp)%float /\
    (QualityResponse.quality_score resp = 0.7%float ->
     QualityResponse.ok_for_model resp = true) /\
    QualityResponse.message resp
      = (if QualityResponse.ok_for_model resp
         then msg_quality_ok else msg_quality_bad).
Proof.
  intros Hvalid.
  destruct (quality_run req w) as (resp & w' & fl & Hrun & Hscore & Hok & Hmsg & _).
  destruct (raw_score_within req Hvalid) as [Hfin Hnz].
  destruct (py_clamp_clamped (Spec.raw_score req)) as (Hlo & Hhi & _).
  exists resp, w'. rewrite Hscore at 1 2 3.
  unfold Spec.score. rewrite (clamp_py_clamp _ Hfin Hnz).
  repeat split; try assumption.
  intros H07. rewrite Hok, H07. reflexivity.
Qed.

Lemma quality_score_follows_spec_witness :
  exists (resp : QualityResponse.t) (w' : world),
    quality small_clean idle_world = (Return resp, w') /\
    QualityResponse.quality_score resp = Spec.score small_clean /\
    (0 <=? QualityResponse.quality_score resp)%float = true /\
    (QualityResponse.quality_score resp <=? 1)%float = true /\
    QualityResponse.ok_for_model resp
      = (0.7 <=? QualityResponse.quality_score resp)%float /\
    (QualityResponse.quality_score resp = 0.7%float ->
     QualityResponse.ok_for_model resp = true) /\
    QualityResponse.message resp
      = (if QualityResponse.ok_for_model resp
         then msg_quality_ok else msg_quality_bad).
Proof.
  apply (quality_score_follows_spec small_clean idle_world).
  split; reflexivity.
Defined.

(** C4. With the four counts fixed, a larger [max_missing_share] (both in
    [[0, 1]]) never yields a larger returned score. *)
Theorem quality_score_antitone_in_missing_share
    (a b : QualityRequest.t) (wa wb : world) :
  Spec.same_counts a b -> Spec.valid_share a -> Spec.valid_share b ->
  (QualityRequest.max_missing_share a
     <=? QualityRequest.max_missing_share b)%float = true ->
  exists (ra rb : QualityResponse.t) (wa' wb' : world),
    quality a wa = (Return ra, wa') /\
    quality b wb = (Return rb, wb') /\
    (QualityResponse.quality_score rb
       <=? QualityResponse.quality_score ra)%float = true.
Proof.
  intros Hsame Ha Hb Hle.
  destruct (quality_run a wa) as (ra & wa' & _ & Hra & Hsa & _).
  destruct (quality_run b wb) as (rb & wb' & _ & Hrb & Hsb & _).
  exists ra, rb, wa', wb'. split; [exact Hra|]. split; [exact Hrb|].
  destruct (raw_score_within a Ha) as [Hfa _].
  destruct (raw_score_within b Hb) as [Hfb _].
  destruct (py_clamp_F2Z _ Hfa) as [Fa Hva].
  destruct (py_clamp_F2Z _ Hfb) as [Fb Hvb].
  rewrite Hsa, Hsb, (leb_F2Z _ _ Fb Fa), Hva, Hvb.
  apply Z.leb_le.
  pose proof (raw_score_antitone a b Hsame Ha Hb Hle). lia.
Qed.

Lemma quality_score_antitone_in_missing_share_witness :
  exists (ra rb : QualityResponse.t) (wa' wb' : world),
    quality small_clean idle_world = (Return ra, wa') /\
    quality small_sparse idle_world = (Return rb, wb') /\
    (QualityResponse.quality_score rb
       <=? QualityResponse.quality_score ra)%float = true.
Proof.
  apply (quality_score_antitone_in_missing_share
           small_clean small_sparse idle_world idle_world).
  - repeat split.
  - split; reflexivity.
  - split; reflexivity.
  - reflexivity.
Defined.

(** C2, as the specification words its example: the FeatureSet
    [max_missing_share=0.9, n_rows=2000, n_cols=5, numeric_cols=3,
    categorical_cols=2] does not score 0.1.  In binary64, [1.0 - 0.9] is
    0.09999999999999998, the float just below the one written [0.1]. *)
Lemma mostly_missing_score_is_not_one_tenth :
  exists (resp : QualityResponse.t) (w' : world),
    quality mostly_missing idle_world = (Return resp, w') /\
    QualityResponse.quality_score resp <> 0.1%float.
Proof.
  destruct (quality_run mostly_missing idle_world)
    as (resp & w' & _ & Hrun & Hscore & _).
  exists resp, w'. split; [exact Hrun|].
  rewrite Hscore. intros Heq.
  assert (Hlt : (py_max 0 (py_min 1 (Spec.raw_score mostly_missing)) <? 0.1)%float = true)
    by reflexivity.
  rewrite Heq in Hlt. discriminate Hlt.
Qed.

(** C2. [quality] returns exactly the five flags of the specification, each
    computed from the raw request fields (the score does not enter); in the
    example [max_missing_share=0.9, n_rows=2000, n_cols=5, numeric_cols=3,
    categorical_cols=2] the score is 0.09999999999999998 (below 0.1),
    [ok_for_model] is false, [too_many_missing] is true and [too_few_rows]
    is false. *)
Theorem quality_flags_follow_spec :
  (forall (req : QualityRequest.t) (w : world),
     exists (resp : QualityResponse.t) (w' : world) (fl : gmap string bool),
       quality req w = (Return resp, w') /\
       QualityResponse.flags resp = Some fl /\
       forall k : string, fl !! k = Spec.flag req k) /\
  (forall w : world,
     exists (resp : QualityResponse.t) (w' : world) (fl : gmap string bool),
       quality mostly_missing w = (Return resp, w') /\
       QualityResponse.quality_score resp = 0.09999999999999998%float /\
       (QualityResponse.quality_score resp <? 0.1)%float = true /\
       QualityResponse.ok_for_model resp = false /\
       QualityResponse.flags resp = Some fl /\
       fl !! "too_many_missing" = Some true /\
       fl !! "too_few_rows" = Some false).
Proof.
  split.
  - intros req w.
    destruct (quality_run req w) as (resp & w' & fl & Hrun & _ & _ & _ & Hfl & Hk & _).
    exists resp, w', fl. auto.
  - intros w.
    destruct (quality_run mostly_missing w)
      as (resp & w' & fl & Hrun & Hscore & Hok & _ & Hfl & Hk & _).
    exists resp, w', fl. rewrite Hok, Hscore, !Hk.
    repeat split; try assumption; reflexivity.
Qed.

(** * The CSV handlers on accepted, parsed, non-empty uploads *)

Section CsvSuccess.
Context `{Core}.
Variables (file : UploadFile.t) (w : world).

Lemma flags_bool_of_restriction (flags_all : gmap string value) :
  boolean_restriction flags_all (flags_bool_of flags_all).
Proof.
  unfold boolean_restriction, flags_bool_of. split.
  - intros k b. rewrite lookup_omap.
    destruct (flags_all !! k) as [[]|]; cbn; split; congruence.
  - intros k v Hk Hv. rewrite lookup_omap, Hk.
    destruct v; try reflexivity. discriminate Hv.
Qed.

Lemma flags_bool_of_no_score (flags_all : gmap string value) :
  score_not_boolean flags_all -> flags_bool_of flags_all !! "quality_score" = None.
Proof.
  intros Hnum. destruct (flags_bool_of_restriction flags_all) as [Hiff _].
  destruct (flags_bool_of flags_all !! "quality_score") as [b|] eqn:Hb;
    [|reflexivity].
  apply Hiff in Hb. exfalso. exact (Hnum b Hb).
Qed.

Lemma quality_from_csv_run (df : DataFrame) (f : float) :
  UploadFile.content_type file ∈ accepted_content_types ->
  read_csv (UploadFile.file file) = inr df ->
  DataFrame_empty df = false ->
  py_float (score_entry df) = Return f ->
  let score := py_max 0 (py_min 1 f) in
  let ok := (0.7 <=? score)%float in
  let dims := preferred_dims (summarize_dataset df) df in
  quality_from_csv file w =
    (Return (QualityResponse.mk ok score (if ok then msg_csv_ok else msg_csv_bad)
               (elapsed_ms w) (Some (flags_bool_of (flags_all_of df)))
               (Some (shape_dict dims))),
     record_event
       (Logged (success_record "/quality-from-csv" (elapsed_ms w) (Some ok) dims w))
       (parsed_world file w)).
Proof.
  intros Hct Hread Hempty Hfloat. cbv zeta.
  unfold quality_from_csv. run_monad.
  rewrite (read_upload_ok "/quality-from-csv" _ file (tick w) df Hct Hread Hempty).
  unfold score_entry, flags_all_of in Hfloat. rewrite Hfloat.
  unfold preferred_dims.
  destruct (summary_n_rows (summarize_dataset df)) as [r|];
    [destruct (summary_n_cols (summarize_dataset df)) as [c|]|]; reflexivity.
Qed.

Lemma quality_from_csv_float_Raise (df : DataFrame) (e : exn) :
  UploadFile.content_type file ∈ accepted_content_types ->
  read_csv (UploadFile.file file) = inr df ->
  DataFrame_empty df = false ->
  py_float (score_entry df) = Raise e ->
  quality_from_csv file w =
    (Raise e, record_event (ReadCsv (UploadFile.file file)) (tick w)).
Proof.
  intros Hct Hread Hempty Hfloat.
  unfold quality_from_csv. run_monad.
  rewrite (read_upload_ok "/quality-from-csv" _ file (tick w) df Hct Hread Hempty).
  unfold score_entry, flags_all_of in Hfloat. rewrite Hfloat. reflexivity.
Qed.

(** A returned response came through the success path. *)
Lemma quality_from_csv_Return (resp : QualityResponse.t) (w' : world) :
  quality_from_csv file w = (Return resp, w') ->
  exists (df : DataFrame) (f : float),
    UploadFile.content_type file ∈ accepted_content_types /\
    read_csv (UploadFile.file file) = inr df /\
    DataFrame_empty df = false /\
    py_float (score_entry df) = Return f.
Proof.
  intros Hrun.
  destruct (read_upload_cases file)
    as [Hct|[Hct [[msg Hr]|[[df [Hr He]]|[df [Hr He]]]]]].
  - rewrite (quality_from_csv_Raise _ _ _ _
               (read_upload_bad_type "/quality-from-csv" _ _ (tick w) Hct)) in Hrun.
    discriminate Hrun.
  - rewrite (quality_from_csv_Raise _ _ _ _
               (read_upload_unreadable "/quality-from-csv" _ _ (tick w) msg Hct Hr)) in Hrun.
    discriminate Hrun.
  - rewrite (quality_from_csv_Raise _ _ _ _
               (read_upload_empty "/quality-from-csv" _ _ (tick w) df Hct Hr He)) in Hrun.
    discriminate Hrun.
  - destruct (py_float (score_entry df)) as [f|e] eqn:Hfloat.
    + exists df, f. auto.
    + rewrite (quality_from_csv_float_Raise df e Hct Hr He Hfloat) in Hrun.
      discriminate Hrun.
Qed.

(** [getattr] of both dimensions, as [quality_flags_from_csv] does it. *)
Lemma quality_flags_from_csv_run (df : DataFrame) :
  UploadFile.content_type file ∈ accepted_content_types ->
  read_csv (UploadFile.file file) = inr df ->
  DataFrame_empty df = false ->
  quality_flags_from_csv file w =
    match summary_n_rows (summarize_dataset df),
          summary_n_cols (summarize_dataset df) with
    | Some r, Some c =>
        (Return (QualityFlagsResponse.mk (flags_bool_of (flags_all_of df))),
         record_event
           (Logged (success_record "/quality-flags-from-csv" (elapsed_ms w)
                      None (r, c) w))
           (parsed_world file w))
    | None, _ => (Raise (AttributeError "n_rows"), (parsed_world file w))
    | Some _, None => (Raise (AttributeError "n_cols"), (parsed_world file w))
    end.
Proof.
  intros Hct Hread Hempty.
  unfold quality_flags_from_csv. run_monad.
  rewrite (read_upload_ok "/quality-flags-from-csv" _ file (tick w) df Hct Hread Hempty).
  destruct (summary_n_rows (summarize_dataset df)) as [r|];
    [destruct (summary_n_cols (summarize_dataset df)) as [c|]|]; reflexivity.
Qed.

Lemma quality_flags_from_csv_Return (resp : QualityFlagsResponse.t) (w' : world) :
  quality_flags_from_csv file w = (Return resp, w') ->
  exists df : DataFrame,
    UploadFile.content_type file ∈ accepted_content_types /\
    read_csv (UploadFile.file file) = inr df /\
    DataFrame_empty df = false /\
    resp = QualityFlagsResponse.mk (flags_bool_of (flags_all_of df)).
Proof.
  intros Hrun.
  destruct (read_upload_cases file)
    as [Hct|[Hct [[msg Hr]|[[df [Hr He]]|[df [Hr He]]]]]].
  - rewrite (quality_flags_from_csv_Raise _ _ _ _
               (read_upload_bad_type "/quality-flags-from-csv" _ _ (tick w) Hct)) in Hrun.
    discriminate Hrun.
  - rewrite (quality_flags_from_csv_Raise _ _ _ _
               (read_upload_unreadable "/quality-flags-from-csv" _ _ (tick w) msg Hct Hr)) in Hrun.
    discriminate Hrun.
  - rewrite (quality_flags_from_csv_Raise _ _ _ _
               (read_upload_empty "/quality-flags-from-csv" _ _ (tick w) df Hct Hr He)) in Hrun.
    discriminate Hrun.
  - rewrite (quality_flags_from_csv_run df Hct Hr He) in Hrun.
    exists df. repeat split; try assumption.
    destruct (summary_n_rows (summarize_dataset df));
      [destruct (summary_n_cols (summarize_dataset df))|];
      try discriminate Hrun.
    injection Hrun as <- _. reflexivity.
Qed.

(** C3. A successful [quality_from_csv] read [quality_score] from the
    collaborator's flags, converted it with [float], clamped it to [[0, 1]],
    set [ok_for_model] to [score >= 0.7], and returned as flags exactly the
    boolean-tagged entries of [flags_all]: every other entry is absent, and
    so is [quality_score] itself, being a number. *)
Theorem quality_from_csv_success (resp : QualityResponse.t) (w' : world) :
  quality_from_csv file w = (Return resp, w') ->
  exists (df : DataFrame) (f : float) (fl : gmap string bool),
    read_csv (UploadFile.file file) = inr df /\
    py_float (default (VFloat 0) (flags_all_of df !! "quality_score")) = Return f /\
    Spec.clamped f (QualityResponse.quality_score resp) /\
    QualityResponse.ok_for_model resp
      = (0.7 <=? QualityResponse.quality_score resp)%float /\
    QualityResponse.flags resp = Some fl /\
    boolean_restriction (flags_all_of df) fl /\
    (score_not_boolean (flags_all_of df) -> fl !! "quality_score" = None).
Proof.
  intros Hrun.
  destruct (quality_from_csv_Return resp w' Hrun) as (df & f & Hct & Hr & He & Hf).
  rewrite (quality_from_csv_run df f Hct Hr He Hf) in Hrun.
  injection Hrun as <- _.
  exists df, f, (flags_bool_of (flags_all_of df)).
  cbn [QualityResponse.quality_score QualityResponse.ok_for_model
       QualityResponse.flags].
  repeat split; try assumption; try apply py_clamp_clamped;
    try apply flags_bool_of_restriction.
  apply flags_bool_of_no_score.
Qed.

(** C9. A successful [quality_flags_from_csv] returns exactly the
    boolean-tagged entries of [flags_all], nothing added: no non-boolean
    entry, and no [quality_score] key, the collaborator's [quality_score]
    being a number. *)
Theorem quality_flags_from_csv_success
    (resp : QualityFlagsResponse.t) (w' : world) :
  quality_flags_from_csv file w = (Return resp, w') ->
  exists df : DataFrame,
    read_csv (UploadFile.file file) = inr df /\
    boolean_restriction (flags_all_of df) (QualityFlagsResponse.flags resp) /\
    (score_not_boolean (flags_all_of df) ->
     QualityFlagsResponse.flags resp !! "quality_score" = None).
Proof.
  intros Hrun.
  destruct (quality_flags_from_csv_Return resp w' Hrun) as (df & Hct & Hr & He & ->).
  exists df. cbn [QualityFlagsResponse.flags].
  split; [exact Hr|]. split; [apply flags_bool_of_restriction|].
  apply flags_bool_of_no_score.
Qed.

(** C10. When the upload is accepted, parsed and non-empty but [flags_all]
    has no [quality_score] key, [quality_from_csv] still returns: the score
    is 0.0, [ok_for_model] is false and the message is the not-ready one. *)
Theorem quality_from_csv_missing_score_defaults (df : DataFrame) :
  UploadFile.content_type file ∈ accepted_content_types ->
  read_csv (UploadFile.file file) = inr df ->
  DataFrame_empty df = false ->
  flags_all_of df !! "quality_score" = None ->
  exists (resp : QualityResponse.t) (w' : world),
    quality_from_csv file w = (Return resp, w') /\
    QualityResponse.quality_score resp = 0%float /\
    QualityResponse.ok_for_model resp = false /\
    QualityResponse.message resp = msg_csv_bad.
Proof.
  intros Hct Hr He Hmiss.
  assert (Hf : py_float (score_entry df) = Return 0%float).
  { unfold score_entry. rewrite Hmiss. reflexivity. }
  eexists _, _. split; [exact (quality_from_csv_run df _ Hct Hr He Hf)|].
  repeat split.
Qed.

(** C8, on the code.  When the summary has no [n_rows] attribute,
    [quality_from_csv] falls back to the frame's own dimensions, but
    [quality_flags_from_csv] raises [AttributeError] after the parse, without
    a response and without a telemetry record. *)
Theorem quality_flags_from_csv_has_no_fallback (df : DataFrame) :
  UploadFile.content_type file ∈ accepted_content_types ->
  read_csv (UploadFile.file file) = inr df ->
  DataFrame_empty df = false ->
  summary_n_rows (summarize_dataset df) = None ->
  (forall (resp : QualityResponse.t) (w' : world),
     quality_from_csv file w = (Return resp, w') ->
     QualityResponse.dataset_shape resp
       = Some (shape_dict ((shape df).1, (shape df).2)) /\
     exists r : LogRecord,
       logged (journal w') = logged (journal w) ++ [r] /\
       rec_n_rows r = Some (shape df).1 /\ rec_n_cols r = Some (shape df).2) /\
  exists w' : world,
    quality_flags_from_csv file w = (Raise (AttributeError "n_rows"), w') /\
    logged (journal w') = logged (journal w).
Proof.
  intros Hct Hr He Hnone. split.
  - intros resp w' Hrun.
    destruct (quality_from_csv_Return resp w' Hrun) as (df' & f & _ & Hr' & _ & Hf).
    assert (df' = df) as -> by congruence.
    rewrite (quality_from_csv_run df f Hct Hr He Hf) in Hrun.
    injection Hrun as <- <-. unfold preferred_dims. rewrite Hnone.
    split; [reflexivity|].
    eexists. cbn [journal record_event parsed_world tick].
    rewrite !logged_app. cbn [logged omap list_omap app]. 
    rewrite app_nil_r. split; [reflexivity|]. split; reflexivity.
  - rewrite (quality_flags_from_csv_run df Hct Hr He), Hnone.
    eexists. split; [reflexivity|].
    cbn [journal record_event parsed_world tick].
    rewrite logged_app. apply app_nil_r.
Qed.
End CsvSuccess.

(** * The theorems at concrete uploads *)

Lemma png_not_accepted :
  UploadFile.content_type png_upload ∉ accepted_content_types.
Proof. apply (bool_decide_eq_false_1 _). reflexivity. Qed.

Lemma csv_accepted (body : string) :
  UploadFile.content_type (csv_upload body) ∈ accepted_content_types.
Proof. apply (bool_decide_eq_true_1 _). reflexivity. Qed.

Lemma invalid_content_type_rejected_before_parse_witness :
  (client_error (quality_from_csv (H := full_core) png_upload idle_world)
     idle_world detail_content_type
     [Logged (error_record "/quality-from-csv" (elapsed_ms idle_world) idle_world)] /\
   csv_reads (journal (quality_from_csv (H := full_core) png_upload idle_world).2)
     = csv_reads (journal idle_world)) /\
  (client_error (quality_flags_from_csv (H := full_core) png_upload idle_world)
     idle_world detail_content_type
     [Logged (error_record "/quality-flags-from-csv" (elapsed_ms idle_world) idle_world)] /\
   csv_reads (journal (quality_flags_from_csv (H := full_core) png_upload idle_world).2)
     = csv_reads (journal idle_world)).
Proof.
  apply (invalid_content_type_rejected_before_parse (H := full_core)
           png_upload idle_world).
  exact png_not_accepted.
Defined.

Lemma empty_dataset_rejected_witness :
  (quality_from_csv (H := full_core) (csv_upload "a,b") idle_world).1
    = Raise (HTTPException 400 detail_empty) /\
  (quality_flags_from_csv (H := full_core) (csv_upload "a,b") idle_world).1
    = Raise (HTTPException 400 detail_empty).
Proof.
  apply (empty_dataset_rejected (H := full_core) (csv_upload "a,b") idle_world
           (0%Z, 2%Z)).
  - apply csv_accepted.
  - reflexivity.
  - reflexivity.
Defined.

Lemma ingestion_failure_logs_one_error_record_witness :
  one_error_record (quality_from_csv (H := full_core) (csv_upload "") idle_world)
    idle_world "/quality-from-csv" /\
  one_error_record (quality_flags_from_csv (H := full_core) (csv_upload "") idle_world)
    idle_world "/quality-flags-from-csv".
Proof.
  apply (ingestion_failure_logs_one_error_record (H := full_core)
           (csv_upload "") idle_world).
  apply (ParseFailure (H := full_core) (csv_upload "")
           "No columns to parse from file").
  - apply csv_accepted.
  - reflexivity.
Defined.

Lemma quality_from_csv_success_witness :
  exists (resp : QualityResponse.t) (w' : world),
    quality_from_csv (H := full_core) (csv_upload "x,y") idle_world
      = (Return resp, w') /\
    exists (df : Z * Z) (f : float) (fl : gmap string bool),
      read_csv (Core := full_core) "x,y" = inr df /\
      py_float (H := full_core)
        (default (VFloat 0) (flags_all_of (H := full_core) df !! "quality_score"))
        = Return f /\
      Spec.clamped f (QualityResponse.quality_score resp) /\
      QualityResponse.ok_for_model resp
        = (0.7 <=? QualityResponse.quality_score resp)%float /\
      QualityResponse.flags resp = Some fl /\
      boolean_restriction (flags_all_of (H := full_core) df) fl /\
      (score_not_boolean (flags_all_of (H := full_core) df) ->
       fl !! "quality_score" = None).
Proof.
  eexists _, _.
  refine ((fun Hrun => conj Hrun
             (quality_from_csv_success (H := full_core) (csv_upload "x,y")
                idle_world _ _ Hrun)) _).
  apply (quality_from_csv_run (H := full_core) (csv_upload "x,y") idle_world
           (3%Z, 2%Z) 0.75%float).
  - apply csv_accepted.
  - reflexivity.
  - reflexivity.
  - reflexivity.
Defined.

Lemma quality_flags_from_csv_success_witness :
  exists (resp : QualityFlagsResponse.t) (w' : world),
    quality_flags_from_csv (H := full_core) (csv_upload "x,y") idle_world
      = (Return resp, w') /\
    exists df : Z * Z,
      read_csv (Core := full_core) "x,y" = inr df /\
      boolean_restriction (flags_all_of (H := full_core) df)
        (QualityFlagsResponse.flags resp) /\
      (score_not_boolean (flags_all_of (H := full_core) df) ->
       QualityFlagsResponse.flags resp !! "quality_score" = None).
Proof.
  eexists _, _.
  refine ((fun Hrun => conj Hrun
             (quality_flags_from_csv_success (H := full_core) (csv_upload "x,y")
                idle_world _ _ Hrun)) _).
  apply (quality_flags_from_csv_run (H := full_core) (csv_upload "x,y")
           idle_world (3%Z, 2%Z)).
  - apply csv_accepted.
  - reflexivity.
  - reflexivity.
Defined.

(** On the stand-in core the numeric diagnostics are dropped and the two
    boolean flags are returned. *)
Example quality_flags_from_csv_on_stub :
  (quality_flags_from_csv (H := full_core) (csv_upload "x,y") idle_world).1
  = Return (QualityFlagsResponse.mk
              (<["too_many_missing" := false]> (<["too_few_rows" := true]> ∅))).
Proof.
  rewrite (quality_flags_from_csv_run (H := full_core) (csv_upload "x,y")
             idle_world (3%Z, 2%Z) (csv_accepted "x,y") eq_refl eq_refl).
  vm_compute. reflexivity.
Qed.

Lemma quality_from_csv_missing_score_defaults_witness :
  exists (resp : QualityResponse.t) (w' : world),
    quality_from_csv (H := scoreless_core) (csv_upload "x,y") idle_world
      = (Return resp, w') /\
    QualityResponse.quality_score resp = 0%float /\
    QualityResponse.ok_for_model resp = false /\
    QualityResponse.message resp = msg_csv_bad.
Proof.
  apply (quality_from_csv_missing_score_defaults (H := scoreless_core)
           (csv_upload "x,y") idle_world (3%Z, 2%Z)).
  - apply csv_accepted.
  - reflexivity.
  - reflexivity.
  - reflexivity.
Defined.

Lemma quality_flags_from_csv_has_no_fallback_witness :
  (forall (resp : QualityResponse.t) (w' : world),
     quality_from_csv (H := bare_core) (csv_upload "x,y") idle_world
       = (Return resp, w') ->
     QualityResponse.dataset_shape resp = Some (shape_dict (3%Z, 2%Z)) /\
     exists r : LogRecord,
       logged (journal w') = logged (journal idle_world) ++ [r] /\
       rec_n_rows r = Some 3%Z /\ rec_n_cols r = Some 2%Z) /\
  exists w' : world,
    quality_flags_from_csv (H := bare_core) (csv_upload "x,y") idle_world
      = (Raise (AttributeError "n_rows"), w') /\
    logged (journal w') = logged (journal idle_world).
Proof.
  apply (quality_flags_from_csv_has_no_fallback (H := bare_core)
           (csv_upload "x,y") idle_world (3%Z, 2%Z)).
  - apply csv_accepted.
  - reflexivity.
  - reflexivity.
  - reflexivity.
Defined.

(** * Further properties of the module *)

(** ** The serialised log record *)

Section Formatter.
Variables (record : LogRecord) (utcnow : string).

(** X1. [JSONFormatter.format] always writes [endpoint], [status],
    [latency_ms], [timestamp] (with a trailing Z) and [request_id]; it writes
    [ok_for_model], [n_rows] and [n_cols] exactly when the record knows them;
    and it writes no other key. *)
Theorem JSONFormatter_format_fields (k : string) :
  JSONFormatter_format record utcnow !! k =
    if decide (k = "endpoint") then Some (VStr (rec_endpoint record))
    else if decide (k = "status") then Some (VStr (rec_status record))
    else if decide (k = "latency_ms") then Some (VFloat (rec_latency_ms record))
    else if decide (k = "timestamp") then Some (VStr (utcnow ++ "Z"))
    else if decide (k = "request_id") then Some (VStr (rec_request_id record))
    else if decide (k = "ok_for_model") then VBool <$> rec_ok_for_model record
    else if decide (k = "n_rows") then VInt <$> rec_n_rows record
    else if decide (k = "n_cols") then VInt <$> rec_n_cols record
    else None.
Proof.
  unfold JSONFormatter_format.
  rewrite map_lookup_filter, !lookup_insert, lookup_empty.
  destruct (rec_ok_for_model record), (rec_n_rows record), (rec_n_cols record);
    cbn [opt_value fmap option_fmap option_map];
    repeat case_decide; subst; try congruence; reflexivity.
Qed.
End Formatter.

Lemma append_Z_inj (s t : string) :
  (s ++ "Z")%string = (t ++ "Z")%string -> s = t.
Proof.
  revert t. induction s as [|c s IH]; intros [|d t] Heq; cbn in Heq.
  - reflexivity.
  - injection Heq as _ Heq. destruct t; discriminate Heq.
  - injection Heq as _ Heq. destruct s; discriminate Heq.
  - injection Heq as -> Heq. f_equal. apply IH, Heq.
Qed.

Lemma JSONFormatter_format_known (r : LogRecord) (t : string) :
  let d := JSONFormatter_format r t in
  d !! "endpoint" = Some (VStr (rec_endpoint r)) /\
  d !! "status" = Some (VStr (rec_status r)) /\
  d !! "latency_ms" = Some (VFloat (rec_latency_ms r)) /\
  d !! "timestamp" = Some (VStr (t ++ "Z")) /\
  d !! "request_id" = Some (VStr (rec_request_id r)) /\
  d !! "ok_for_model" = VBool <$> rec_ok_for_model r /\
  d !! "n_rows" = VInt <$> rec_n_rows r /\
  d !! "n_cols" = VInt <$> rec_n_cols r.
Proof.
  cbv zeta. unfold JSONFormatter_format.
  repeat split; rewrite map_lookup_filter;
    repeat (rewrite lookup_insert_ne by discriminate);
    rewrite lookup_insert;
    try reflexivity.
  - destruct (rec_ok_for_model r); reflexivity.
  - destruct (rec_n_rows r); reflexivity.
  - destruct (rec_n_cols r); reflexivity.
Qed.

(** X2. The serialised form loses nothing: two records that serialise to the
    same dictionary are the same record, written at the same time. *)
Theorem JSONFormatter_format_lossless (r r' : LogRecord) (t t' : string) :
  JSONFormatter_format r t = JSONFormatter_format r' t' -> r = r' /\ t = t'.
Proof.
  intros Heq.
  destruct (JSONFormatter_format_known r t)
    as (H1 & H2 & H3 & H4 & H5 & H6 & H7 & H8).
  destruct (JSONFormatter_format_known r' t')
    as (H1' & H2' & H3' & H4' & H5' & H6' & H7' & H8').
  rewrite Heq in H1, H2, H3, H4, H5, H6, H7, H8.
  rewrite H1' in H1. rewrite H2' in H2. rewrite H3' in H3. rewrite H4' in H4.
  rewrite H5' in H5. rewrite H6' in H6. rewrite H7' in H7. rewrite H8' in H8.
  clear - H1 H2 H3 H4 H5 H6 H7 H8.
  destruct r as [e s l o nr nc i], r' as [e' s' l' o' nr' nc' i'].
  cbn [rec_endpoint rec_status rec_latency_ms rec_ok_for_model rec_n_rows
       rec_n_cols rec_request_id] in *.
  injection H1 as ->. injection H2 as ->. injection H3 as ->.
  injection H4 as H4. injection H5 as ->.
  split; [|symmetry; apply append_Z_inj, H4].
  f_equal.
  - destruct o, o'; cbn in H6; congruence.
  - destruct nr, nr'; cbn in H7; congruence.
  - destruct nc, nc'; cbn in H8; congruence.
Qed.

(** ** Telemetry of the three handlers *)

(** X3. [quality] always returns, reads the clock twice, parses nothing and
    hands the logger exactly one record: a success record of [/quality]
    with the request's own dimensions, the verdict and the latency of the
    response, and the request id of the context. *)
Theorem quality_logs_one_success_record (req : QualityRequest.t) (w : world) :
  exists resp : QualityResponse.t,
    quality req w =
      (Return resp,
       record_event
         (Logged (success_record "/quality" (QualityResponse.latency_ms resp)
                    (Some (QualityResponse.ok_for_model resp))
                    (QualityRequest.n_rows req, QualityRequest.n_cols req) w))
         (tick (tick w))) /\
    QualityResponse.latency_ms resp = elapsed_ms w.
Proof.
  unfold quality. run_monad. eexists. split.
  - apply (f_equal2 pair); [reflexivity|]. reflexivity.
  - reflexivity.
Qed.

Lemma py_float_Raise `{Core} (v : value) (e : exn) :
  py_float v = Raise e -> e = TypeError \/ e = ValueError \/ e = OverflowError.
Proof.
  destruct v as [|b|n|f|s]; cbn [py_float]; intros Hv.
  - injection Hv as <-. auto.
  - discriminate Hv.
  - unfold float_of_int in Hv.
    destruct (is_infinity _); [|discriminate Hv]. injection Hv as <-. auto.
  - discriminate Hv.
  - destruct (float_of_str s); [discriminate Hv|]. injection Hv as <-. auto.
Qed.

Section Telemetry.
Context `{Core}.
Variables (file : UploadFile.t) (w : world).

(** X4. A [quality_from_csv] run that returned appended two events to the
    journal, in this order: the one call of [pd.read_csv] on the upload, and
    one success record that agrees with the response on the verdict, the
    latency and the dimensions. *)
Theorem quality_from_csv_success_logged
    (resp : QualityResponse.t) (w' : world) :
  quality_from_csv file w = (Return resp, w') ->
  exists dims : Z * Z,
    QualityResponse.dataset_shape resp = Some (shape_dict dims) /\
    QualityResponse.latency_ms resp = elapsed_ms w /\
    journal w' = journal w ++
      [ReadCsv (UploadFile.file file);
       Logged (success_record "/quality-from-csv"
                 (QualityResponse.latency_ms resp)
                 (Some (QualityResponse.ok_for_model resp)) dims w)].
Proof.
  intros Hrun.
  destruct (quality_from_csv_Return file w resp w' Hrun)
    as (df & f & Hct & Hread & Hempty & Hfloat).
  rewrite (quality_from_csv_run file w df f Hct Hread Hempty Hfloat) in Hrun.
  injection Hrun as <- <-.
  exists (preferred_dims (summarize_dataset df) df).
  cbn [QualityResponse.dataset_shape QualityResponse.latency_ms
       QualityResponse.ok_for_model journal record_event parsed_world tick].
  rewrite <- app_assoc. repeat split.
Qed.

(** X5. A [quality_flags_from_csv] run that returned appended the one call of
    [pd.read_csv] and then one success record; the record carries the
    summary's own [n_rows] and [n_cols] and no verdict, so its serialised
    form has no [ok_for_model] field. *)
Theorem quality_flags_from_csv_success_logged
    (resp : QualityFlagsResponse.t) (w' : world) :
  quality_flags_from_csv file w = (Return resp, w') ->
  exists (df : DataFrame) (r c : Z) (record : LogRecord),
    read_csv (UploadFile.file file) = inr df /\
    summary_n_rows (summarize_dataset df) = Some r /\
    summary_n_cols (summarize_dataset df) = Some c /\
    record = success_record "/quality-flags-from-csv" (elapsed_ms w) None (r, c) w /\
    journal w' = journal w ++ [ReadCsv (UploadFile.file file); Logged record] /\
    forall utcnow : string,
      JSONFormatter_format record utcnow !! "ok_for_model" = None /\
      JSONFormatter_format record utcnow !! "n_rows" = Some (VInt r) /\
      JSONFormatter_format record utcnow !! "n_cols" = Some (VInt c).
Proof.
  intros Hrun.
  destruct (quality_flags_from_csv_Return file w resp w' Hrun)
    as (df & Hct & Hread & Hempty & _).
  rewrite (quality_flags_from_csv_run file w df Hct Hread Hempty) in Hrun.
  destruct (summary_n_rows (summarize_dataset df)) as [r|] eqn:Hr;
    [destruct (summary_n_cols (summarize_dataset df)) as [c|] eqn:Hc|];
    try discriminate Hrun.
  injection Hrun as _ <-.
  exists df, r, c, (success_record "/quality-flags-from-csv" (elapsed_ms w) None (r, c) w).
  split; [exact Hread|]. split; [exact Hr|]. split; [exact Hc|].
  split; [reflexivity|]. split.
  - cbn [journal record_event parsed_world tick].
    rewrite <- app_assoc. reflexivity.
  - intros utcnow.
    destruct (JSONFormatter_format_known
                (success_record "/quality-flags-from-csv" (elapsed_ms w) None (r, c) w)
                utcnow) as (_ & _ & _ & _ & _ & Hok & Hrows & Hcols).
    auto.
Qed.

(** X6. Whatever the upload, the collaborator and the world, a run of either
    CSV handler only appends to the journal and leaves the context variable
    and the clock alone; it calls [pd.read_csv] at most once; every record
    it logs names its endpoint and the request id of the context; a return
    logs exactly one success record; an [HTTPException] has status 400 and
    logs exactly one error record; any other exception logs nothing. *)
Theorem csv_handlers_account_for_every_outcome :
  (exists evs : list event,
     appends w (quality_from_csv file w).2 evs /\
     accounted "/quality-from-csv" w (quality_from_csv file w).1 evs /\
     length (csv_reads evs) <= 1) /\
  (exists evs : list event,
     appends w (quality_flags_from_csv file w).2 evs /\
     accounted "/quality-flags-from-csv" w (quality_flags_from_csv file w).1 evs /\
     length (csv_reads evs) <= 1).
Proof.
  destruct (read_upload_cases file)
    as [Hct|[Hct [[msg Hr]|[[df [Hr He]]|[df [Hr He]]]]]].
  - split.
    + rewrite (quality_from_csv_Raise _ _ _ _
                 (read_upload_bad_type "/quality-from-csv" _ _ (tick w) Hct)).
      eexists [Logged _]. unfold appends, accounted.
      cbn [fst snd journal record_event tick request_id_var clock logged
           csv_reads omap list_omap length].
      repeat split; eauto.
    + rewrite (quality_flags_from_csv_Raise _ _ _ _
                 (read_upload_bad_type "/quality-flags-from-csv" _ _ (tick w) Hct)).
      eexists [Logged _]. unfold appends, accounted.
      cbn [fst snd journal record_event tick request_id_var clock logged
           csv_reads omap list_omap length].
      repeat split; eauto.
  - split.
    + rewrite (quality_from_csv_Raise _ _ _ _
                 (read_upload_unreadable "/quality-from-csv" _ _ (tick w) msg Hct Hr)).
      eexists [ReadCsv _; Logged _]. unfold appends, accounted.
      cbn [fst snd journal record_event tick request_id_var clock logged
           csv_reads omap list_omap length].
      rewrite <- app_assoc. repeat split; eauto.
    + rewrite (quality_flags_from_csv_Raise _ _ _ _
                 (read_upload_unreadable "/quality-flags-from-csv" _ _ (tick w) msg Hct Hr)).
      eexists [ReadCsv _; Logged _]. unfold appends, accounted.
      cbn [fst snd journal record_event tick request_id_var clock logged
           csv_reads omap list_omap length].
      rewrite <- app_assoc. repeat split; eauto.
  - split.
    + rewrite (quality_from_csv_Raise _ _ _ _
                 (read_upload_empty "/quality-from-csv" _ _ (tick w) df Hct Hr He)).
      eexists [ReadCsv _; Logged _]. unfold appends, accounted.
      cbn [fst snd journal record_event tick request_id_var clock logged
           csv_reads omap list_omap length].
      rewrite <- app_assoc. repeat split; eauto.
    + rewrite (quality_flags_from_csv_Raise _ _ _ _
                 (read_upload_empty "/quality-flags-from-csv" _ _ (tick w) df Hct Hr He)).
      eexists [ReadCsv _; Logged _]. unfold appends, accounted.
      cbn [fst snd journal record_event tick request_id_var clock logged
           csv_reads omap list_omap length].
      rewrite <- app_assoc. repeat split; eauto.
  - split.
    + destruct (py_float (score_entry df)) as [f|e] eqn:Hfloat.
      * rewrite (quality_from_csv_run file w df f Hct Hr He Hfloat).
        eexists [ReadCsv _; Logged _]. unfold appends, accounted.
        cbn [fst snd journal record_event parsed_world tick request_id_var
             clock logged csv_reads omap list_omap length].
        rewrite <- app_assoc. repeat split; eauto.
      * rewrite (quality_from_csv_float_Raise file w df e Hct Hr He Hfloat).
        exists [ReadCsv (UploadFile.file file)]. unfold appends, accounted.
        cbn [fst snd journal record_event tick request_id_var clock logged
             csv_reads omap list_omap length].
        repeat split; eauto.
        destruct (py_float_Raise _ _ Hfloat) as [->|[->| ->]]; reflexivity.
    + rewrite (quality_flags_from_csv_run file w df Hct Hr He).
      destruct (summary_n_rows (summarize_dataset df)) as [r|];
        [destruct (summary_n_cols (summarize_dataset df)) as [c|]|].
      * eexists [ReadCsv _; Logged _]. unfold appends, accounted.
        cbn [fst snd journal record_event parsed_world tick request_id_var
             clock logged csv_reads omap list_omap length].
        rewrite <- app_assoc. repeat split; eauto.
      * exists [ReadCsv (UploadFile.file file)]. unfold appends, accounted.
        cbn [fst snd journal record_event parsed_world tick request_id_var
             clock logged csv_reads omap list_omap length].
        repeat split; eauto.
      * exists [ReadCsv (UploadFile.file file)]. unfold appends, accounted.
        cbn [fst snd journal record_event parsed_world tick request_id_var
             clock logged csv_reads omap list_omap length].
        repeat split; eauto.
Qed.
End Telemetry.

(** ** Rejections and failures of the CSV handlers *)

Lemma is_nan_Prim2SF (f : float) : is_nan f = true -> Prim2SF f = S754_nan.
Proof. intros Hnan. unfold Prim2SF. rewrite Hnan. reflexivity. Qed.

(** [max(0.0, min(1.0, nan))] is [1.0]: no comparison with NaN holds, so
    [min] keeps its first argument. *)
Lemma py_clamp_nan (f : float) :
  is_nan f = true -> py_max 0 (py_min 1 f) = 1%float.
Proof.
  intros Hnan. unfold py_min.
  rewrite ltb_spec, (is_nan_Prim2SF f Hnan). reflexivity.
Qed.

Section Rejections.
Context `{Core}.
Variables (file : UploadFile.t) (w : world).

(** X7. When pandas cannot parse an accepted upload, both CSV handlers raise
    [HTTPException(400)] whose detail is the fixed prefix followed by the
    text of the pandas exception; the parse was attempted once and one error
    record follows it. *)
Theorem unreadable_csv_rejected_with_parser_message (msg : string) :
  UploadFile.content_type file ∈ accepted_content_types ->
  read_csv (UploadFile.file file) = inl msg ->
  client_error (quality_from_csv file w) w
    ("Не удалось прочитать CSV: " ++ msg)%string
    [ReadCsv (UploadFile.file file);
     Logged (error_record "/quality-from-csv" (elapsed_ms w) w)] /\
  client_error (quality_flags_from_csv file w) w
    ("Не удалось прочитать CSV: " ++ msg)%string
    [ReadCsv (UploadFile.file file);
     Logged (error_record "/quality-flags-from-csv" (elapsed_ms w) w)].
Proof.
  intros Hct Hread. split.
  - rewrite (quality_from_csv_Raise _ _ _ _
               (read_upload_unreadable "/quality-from-csv" _ _ (tick w) msg Hct Hread)).
    unfold client_error. cbn [fst snd journal record_event tick].
    rewrite <- app_assoc. split; reflexivity.
  - rewrite (quality_flags_from_csv_Raise _ _ _ _
               (read_upload_unreadable "/quality-flags-from-csv" _ _ (tick w) msg Hct Hread)).
    unfold client_error. cbn [fst snd journal record_event tick].
    rewrite <- app_assoc. split; reflexivity.
Qed.

(** X8. For an accepted upload that parses, each CSV handler answers with
    the empty-data rejection exactly when the frame has no rows or no
    columns. *)
Theorem empty_rejection_iff_an_axis_is_empty (df : DataFrame) :
  UploadFile.content_type file ∈ accepted_content_types ->
  read_csv (UploadFile.file file) = inr df ->
  ((quality_from_csv file w).1 = Raise (HTTPException 400 detail_empty) <->
   (shape df).1 = 0%Z \/ (shape df).2 = 0%Z) /\
  ((quality_flags_from_csv file w).1 = Raise (HTTPException 400 detail_empty) <->
   (shape df).1 = 0%Z \/ (shape df).2 = 0%Z).
Proof.
  intros Hct Hread.
  assert (Hiff : DataFrame_empty df = true <->
                 (shape df).1 = 0%Z \/ (shape df).2 = 0%Z).
  { unfold DataFrame_empty. rewrite orb_true_iff, !Z.eqb_eq. reflexivity. }
  rewrite <- Hiff.
  destruct (DataFrame_empty df) eqn:Hempty.
  - rewrite (quality_from_csv_Raise _ _ _ _
               (read_upload_empty "/quality-from-csv" _ _ (tick w) df Hct Hread Hempty)).
    rewrite (quality_flags_from_csv_Raise _ _ _ _
               (read_upload_empty "/quality-flags-from-csv" _ _ (tick w) df Hct Hread Hempty)).
    split; split; reflexivity.
  - split; (split; [|discriminate]).
    + destruct (py_float (score_entry df)) as [f|e] eqn:Hfloat.
      * rewrite (quality_from_csv_run file w df f Hct Hread Hempty Hfloat).
        discriminate.
      * rewrite (quality_from_csv_float_Raise file w df e Hct Hread Hempty Hfloat).
        destruct (py_float_Raise _ _ Hfloat) as [->|[->| ->]]; discriminate.
    + rewrite (quality_flags_from_csv_run file w df Hct Hread Hempty).
      destruct (summary_n_rows (summarize_dataset df));
        [destruct (summary_n_cols (summarize_dataset df))|]; discriminate.
Qed.

(** X9. When [float()] rejects the collaborator's [quality_score] (it is
    [None], a string that is not a number, or an integer too large for a
    float), [quality_from_csv] lets that [TypeError], [ValueError] or
    [OverflowError] escape: no [HTTPException], and after the parse nothing
    is logged. *)
Theorem quality_from_csv_unconvertible_score (df : DataFrame) (e : exn) :
  UploadFile.content_type file ∈ accepted_content_types ->
  read_csv (UploadFile.file file) = inr df ->
  DataFrame_empty df = false ->
  py_float (score_entry df) = Raise e ->
  (quality_from_csv file w).1 = Raise e /\
  (e = TypeError \/ e = ValueError \/ e = OverflowError) /\
  journal (quality_from_csv file w).2
    = journal w ++ [ReadCsv (UploadFile.file file)] /\
  logged (journal (quality_from_csv file w).2) = logged (journal w).
Proof.
  intros Hct Hread Hempty Hfloat.
  rewrite (quality_from_csv_float_Raise file w df e Hct Hread Hempty Hfloat).
  cbn [fst snd journal record_event tick].
  split; [reflexivity|]. split; [exact (py_float_Raise _ _ Hfloat)|].
  split; [reflexivity|].
  rewrite logged_app. apply app_nil_r.
Qed.

(** X10. A [quality_score] that is NaN is not rejected: no comparison with
    NaN holds, so the clamp turns it into 1.0 and the dataset is declared
    fit for a model. *)
Theorem quality_from_csv_nan_score_passes (df : DataFrame) (f : float) :
  UploadFile.content_type file ∈ accepted_content_types ->
  read_csv (UploadFile.file file) = inr df ->
  DataFrame_empty df = false ->
  py_float (score_entry df) = Return f ->
  is_nan f = true ->
  exists (resp : QualityResponse.t) (w' : world),
    quality_from_csv file w = (Return resp, w') /\
    QualityResponse.quality_score resp = 1%float /\
    QualityResponse.ok_for_model resp = true /\
    QualityResponse.message resp = msg_csv_ok.
Proof.
  intros Hct Hread Hempty Hfloat Hnan.
  rewrite (quality_from_csv_run file w df f Hct Hread Hempty Hfloat).
  rewrite (py_clamp_nan f Hnan).
  eexists _, _. split; [reflexivity|].
  cbn [QualityResponse.quality_score QualityResponse.ok_for_model
       QualityResponse.message].
  repeat split.
Qed.
End Rejections.

(** ** The request-id middleware *)

Lemma quality_well_behaved (req : QualityRequest.t) :
  well_behaved "/quality" (quality req).
Proof.
  intros w. unfold quality. run_monad.
  eexists [Logged _]. unfold appends, accounted.
  cbn [fst snd journal record_event tick request_id_var clock logged
       omap list_omap].
  repeat split; eauto.
Qed.

(** X11. Around any handler that behaves as the three handlers do,
    [RequestIDMiddleware.dispatch] gives the handler's outcome, tags every
    record logged during the request with the fresh id, and leaves the
    context variable as it found it -- also when the handler raises. *)
Theorem dispatch_tags_records_and_restores_context {A : Type}
    (endpoint uuid4 : string) (call_next : M A) :
  well_behaved endpoint call_next ->
  forall w : world,
    exists evs : list event,
      (dispatch uuid4 call_next w).1 = (call_next (set_request_id uuid4 w)).1 /\
      appends w (dispatch uuid4 call_next w).2 evs /\
      accounted endpoint (set_request_id uuid4 w) (dispatch uuid4 call_next w).1 evs /\
      Forall (fun r => rec_request_id r = uuid4) (logged evs).
Proof.
  intros Hwb w.
  destruct (Hwb (set_request_id uuid4 w)) as (evs & (Hj & Hid & Hclock) & Hacc).
  exists evs. unfold dispatch, request_id_var_set, request_id_var_reset, try_finally.
  run_monad.
  destruct (call_next (set_request_id uuid4 w)) as [o w1].
  cbn [fst snd] in *. unfold appends.
  cbn [journal request_id_var clock set_request_id] in *.
  split; [reflexivity|]. split; [auto|]. split; [exact Hacc|].
  destruct Hacc as [Htag _].
  eapply Forall_impl; [exact Htag|]. intros r [_ Hr]. exact Hr.
Qed.

(** ** The score as a function of the penalties *)

Section Penalties.
Local Open Scope Z_scope.

Lemma deduct_le (k : Z) (s : float) (d : bool * float) :
  1074 <= k <= 2090 -> within k s -> within 1074 d.2 -> 0 <= F2Z d.2 ->
  F2Z (Spec.deduct s d) <= F2Z s.
Proof.
  intros Hk Hs Hd Hpos. unfold Spec.deduct. destruct d.1; [|lia].
  assert (Hd' : within k d.2) by (apply (within_weaken 1074); [lia|exact Hd]).
  destruct (sub_within k s d.2 ltac:(lia) Hs Hd') as (_ & -> & _).
  unfold F2Z at 3. rewrite <- (RN_representable _ (Prim2SF_valid s)).
  apply RN_mono. unfold F2Z at 1. lia.
Qed.

Lemma fold_deduct_penalised (dsa dsb : list (bool * float)) :
  Forall2 (fun da db : bool * float => (da.1 = true -> db.1 = true) /\ da.2 = db.2)
    dsa dsb ->
  forall (k : Z) (sa sb : float),
    1074 <= k -> k + Z.of_nat (length dsb) <= 2091 ->
    Forall (fun d : bool * float => within 1074 d.2 /\ 0 <= F2Z d.2) dsb ->
    within k sa -> within k sb -> F2Z sb <= F2Z sa ->
    F2Z (fold_left Spec.deduct dsb sb) <= F2Z (fold_left Spec.deduct dsa sa).
Proof.
  induction 1 as [|da db dsa dsb [Himp Hamt] _ IH];
    intros k sa sb Hk Hlen Hds Hsa Hsb Hle; [exact Hle|].
  apply Forall_cons in Hds as [[Hd Hpos] Hds].
  cbn [fold_left length] in *. rewrite Nat2Z.inj_succ in Hlen.
  assert (Hda : within 1074 da.2) by (rewrite Hamt; exact Hd).
  apply (IH (k + 1)); [lia|lia|exact Hds| | |].
  - apply deduct_within; [lia|exact Hsa|exact Hda].
  - apply deduct_within; [lia|exact Hsb|exact Hd].
  - destruct da as [[] xa], db as [[] xb]; cbn [fst snd] in *; subst xa.
    + apply (deduct_mono k sb sa (true, xb)); [lia|exact Hsb|exact Hsa|exact Hd|exact Hle].
    + discriminate (Himp eq_refl).
    + apply Z.le_trans with (F2Z sb); [|exact Hle].
      apply (deduct_le k sb (true, xb)); [lia|exact Hsb|exact Hd|exact Hpos].
    + exact Hle.
Qed.

Lemma deductions_tail_nonneg (fs : QualityRequest.t) :
  Forall (fun d : bool * float => within 1074 d.2 /\ 0 <= F2Z d.2)
    (tail (Spec.deductions fs)).
Proof.
  unfold Spec.deductions. cbn [tail].
  repeat apply Forall_cons_2; try apply Forall_nil_2; cbn [snd];
    (split; [apply within_literal; vm_compute; reflexivity
            |apply Z.leb_le; vm_compute; reflexivity]).
Qed.

Lemma raw_score_penalised (a b : QualityRequest.t) :
  at_least_as_penalised a b -> Spec.valid_share a -> Spec.valid_share b ->
  (QualityRequest.max_missing_share a <=? QualityRequest.max_missing_share b)%float = true ->
  F2Z (Spec.raw_score b) <= F2Z (Spec.raw_score a).
Proof.
  intros Hpen [Ha0 Ha1] [Hb0 Hb1] Hle.
  pose proof (within_share _ Ha0 Ha1) as Hxa.
  pose proof (within_share _ Hb0 Hb1) as Hxb.
  rewrite (leb_F2Z _ _ (proj1 Hxa) (proj1 Hxb)) in Hle. apply Z.leb_le in Hle.
  destruct (one_minus_share _ Hxa) as (Hwa & Hva & _).
  destruct (one_minus_share _ Hxb) as (Hwb & Hvb & _).
  rewrite !raw_score_unfold.
  apply (fold_deduct_penalised _ _ Hpen 1075); [lia|cbn; lia| | | |].
  - apply deductions_tail_nonneg.
  - exact Hwa.
  - exact Hwb.
  - rewrite Hva, Hvb. apply RN_mono. lia.
Qed.

(** X12. Between two valid requests, the one with at least the missing share
    and at least the penalties of the other never gets the higher score:
    every deduction can only lower the result, rounding included. *)
Theorem quality_score_never_rewards_a_penalty
    (a b : QualityRequest.t) (wa wb : world) :
  at_least_as_penalised a b -> Spec.valid_share a -> Spec.valid_share b ->
  (QualityRequest.max_missing_share a
     <=? QualityRequest.max_missing_share b)%float = true ->
  exists (ra rb : QualityResponse.t) (wa' wb' : world),
    quality a wa = (Return ra, wa') /\
    quality b wb = (Return rb, wb') /\
    (QualityResponse.quality_score rb
       <=? QualityResponse.quality_score ra)%float = true.
Proof.
  intros Hpen Ha Hb Hle.
  destruct (quality_run a wa) as (ra & wa' & _ & Hra & Hsa & _).
  destruct (quality_run b wb) as (rb & wb' & _ & Hrb & Hsb & _).
  exists ra, rb, wa', wb'. split; [exact Hra|]. split; [exact Hrb|].
  destruct (raw_score_within a Ha) as [Hfa _].
  destruct (raw_score_within b Hb) as [Hfb _].
  destruct (py_clamp_F2Z _ Hfa) as [Fa Hva].
  destruct (py_clamp_F2Z _ Hfb) as [Fb Hvb].
  rewrite Hsa, Hsb, (leb_F2Z _ _ Fb Fa), Hva, Hvb.
  apply Z.leb_le.
  pose proof (raw_score_penalised a b Hpen Ha Hb Hle). lia.
Qed.

Lemma half_missing_least_penalised (req : QualityRequest.t) :
  at_least_as_penalised half_missing req.
Proof.
  unfold at_least_as_penalised, Spec.deductions. cbn [tail].
  repeat apply Forall2_cons_2; try apply Forall2_nil_2; cbn [fst snd];
    (split; [discriminate|reflexivity]).
Qed.

(** X13. For a valid request the verdict and the flag agree: a response
    with [ok_for_model] true never carries [too_many_missing] true, because
    more than half missing leaves a score of at most 0.5. *)
Theorem quality_ok_excludes_too_many_missing
    (req : QualityRequest.t) (w : world) :
  Spec.valid_share req ->
  exists (resp : QualityResponse.t) (w' : world) (fl : gmap string bool),
    quality req w = (Return resp, w') /\
    QualityResponse.flags resp = Some fl /\
    (QualityResponse.ok_for_model resp = true ->
     fl !! "too_many_missing" = Some false).
Proof.
  intros Hv.
  destruct (quality_run req w) as (resp & w' & fl & Hrun & Hs & Hok & _ & Hfl & Hk & _).
  exists resp, w', fl. split; [exact Hrun|]. split; [exact Hfl|].
  intros Htrue. rewrite Hk. unfold Spec.flag.
  rewrite decide_False by discriminate. rewrite decide_False by discriminate.
  rewrite decide_True by reflexivity. f_equal.
  destruct (0.5 <? QualityRequest.max_missing_share req)%float eqn:Hmany;
    [exfalso|reflexivity].
  assert (Hhalf : Spec.valid_share half_missing) by (split; reflexivity).
  pose proof (raw_score_penalised half_missing req
                (half_missing_least_penalised req) Hhalf Hv
                (ltb_leb _ _ Hmany)) as Hle.
  destruct (raw_score_within req Hv) as [Hf _].
  destruct (py_clamp_F2Z _ Hf) as [Fs Hvs].
  assert (F07 : finite 0.7) by reflexivity.
  rewrite Hok, Hs, (leb_F2Z _ _ F07 Fs), Hvs in Htrue.
  apply Z.leb_le in Htrue.
  assert (Hraw : F2Z (Spec.raw_score half_missing) = 2 ^ 1073)
    by (vm_compute; reflexivity).
  assert (H07 : 2 ^ 1073 < F2Z 0.7)
    by (apply Z.ltb_lt; vm_compute; reflexivity).
  assert (Hpow : 2 ^ 1073 < 2 ^ 1074)
    by (apply Z.pow_lt_mono_r; lia).
  lia.
Qed.
End Penalties.

(** ** What the handlers do not depend on *)

Section NoState.
Context `{Core}.
Variables (req : QualityRequest.t) (file : UploadFile.t).

(** X14. An upload that declares no content type at all is turned away like
    a wrong one, by both CSV handlers, without a call of [pd.read_csv]. *)
Theorem upload_without_content_type_rejected (body : string) (w : world) :
  client_error (quality_from_csv (untyped_upload body) w) w detail_content_type
    [Logged (error_record "/quality-from-csv" (elapsed_ms w) w)] /\
  client_error (quality_flags_from_csv (untyped_upload body) w) w detail_content_type
    [Logged (error_record "/quality-flags-from-csv" (elapsed_ms w) w)].
Proof.
  assert (Hct : UploadFile.content_type (untyped_upload body)
                  ∉ accepted_content_types)
    by (apply (bool_decide_eq_false_1 _); reflexivity).
  split.
  - rewrite (quality_from_csv_Raise _ _ _ _
               (read_upload_bad_type "/quality-from-csv" _ _ (tick w) Hct)).
    split; reflexivity.
  - rewrite (quality_flags_from_csv_Raise _ _ _ _
               (read_upload_bad_type "/quality-flags-from-csv" _ _ (tick w) Hct)).
    split; reflexivity.
Qed.

(** X15. The handlers keep no state between requests: run in any two worlds
    (other clock, other journal, other request id), each handler raises the
    same exception or returns the same response, the reported latency
    apart. *)
Theorem handlers_keep_no_state (w1 w2 : world) :
  same_outcome same_verdict (quality req w1).1 (quality req w2).1 /\
  same_outcome same_verdict
    (quality_from_csv file w1).1 (quality_from_csv file w2).1 /\
  same_outcome eq
    (quality_flags_from_csv file w1).1 (quality_flags_from_csv file w2).1.
Proof.
  split; [|split].
  - unfold quality. run_monad. repeat split.
  - destruct (read_upload_cases file)
      as [Hct|[Hct [[msg Hr]|[[df [Hr He]]|[df [Hr He]]]]]].
    + rewrite !(quality_from_csv_Raise _ _ _ _
                  (read_upload_bad_type "/quality-from-csv" _ _ (tick _) Hct)).
      reflexivity.
    + rewrite !(quality_from_csv_Raise _ _ _ _
                  (read_upload_unreadable "/quality-from-csv" _ _ (tick _) msg Hct Hr)).
      reflexivity.
    + rewrite !(quality_from_csv_Raise _ _ _ _
                  (read_upload_empty "/quality-from-csv" _ _ (tick _) df Hct Hr He)).
      reflexivity.
    + destruct (py_float (score_entry df)) as [f|e] eqn:Hfloat.
      * rewrite !(quality_from_csv_run file _ df f Hct Hr He Hfloat).
        repeat split.
      * rewrite !(quality_from_csv_float_Raise file _ df e Hct Hr He Hfloat).
        reflexivity.
  - destruct (read_upload_cases file)
      as [Hct|[Hct [[msg Hr]|[[df [Hr He]]|[df [Hr He]]]]]].
    + rewrite !(quality_flags_from_csv_Raise _ _ _ _
                  (read_upload_bad_type "/quality-flags-from-csv" _ _ (tick _) Hct)).
      reflexivity.
    + rewrite !(quality_flags_from_csv_Raise _ _ _ _
                  (read_upload_unreadable "/quality-flags-from-csv" _ _ (tick _) msg Hct Hr)).
      reflexivity.
    + rewrite !(quality_flags_from_csv_Raise _ _ _ _
                  (read_upload_empty "/quality-flags-from-csv" _ _ (tick _) df Hct Hr He)).
      reflexivity.
    + rewrite !(quality_flags_from_csv_run file _ df Hct Hr He).
      destruct (summary_n_rows (summarize_dataset df));
        [destruct (summary_n_cols (summarize_dataset df))|]; reflexivity.
Qed.
End NoState.

(** * The further properties at concrete inputs *)

Lemma JSONFormatter_format_lossless_witness :
  error_record "/quality-from-csv" 1.5 idle_world
    = error_record "/quality-from-csv" 1.5 idle_world /\
  "2024-05-01T10:00:00" = "2024-05-01T10:00:00".
Proof.
  apply (JSONFormatter_format_lossless
           (error_record "/quality-from-csv" 1.5 idle_world)
           (error_record "/quality-from-csv" 1.5 idle_world)
           "2024-05-01T10:00:00" "2024-05-01T10:00:00").
  reflexivity.
Defined.

Lemma quality_from_csv_success_logged_witness :
  exists (resp : QualityResponse.t) (w' : world),
    quality_from_csv (H := full_core) (csv_upload "x,y") idle_world
      = (Return resp, w') /\
    exists dims : Z * Z,
      QualityResponse.dataset_shape resp = Some (shape_dict dims) /\
      QualityResponse.latency_ms resp = elapsed_ms idle_world /\
      journal w' = journal idle_world ++
        [ReadCsv (UploadFile.file (csv_upload "x,y"));
         Logged (success_record "/quality-from-csv"
                   (QualityResponse.latency_ms resp)
                   (Some (QualityResponse.ok_for_model resp)) dims idle_world)].
Proof.
  eexists _, _.
  refine ((fun Hrun => conj Hrun
             (quality_from_csv_success_logged (H := full_core) (csv_upload "x,y")
                idle_world _ _ Hrun)) _).
  apply (quality_from_csv_run (H := full_core) (csv_upload "x,y") idle_world
           (3%Z, 2%Z) 0.75%float).
  - apply csv_accepted.
  - reflexivity.
  - reflexivity.
  - reflexivity.
Defined.

Lemma quality_flags_from_csv_success_logged_witness :
  exists (resp : QualityFlagsResponse.t) (w' : world),
    quality_flags_from_csv (H := full_core) (csv_upload "x,y") idle_world
      = (Return resp, w') /\
    exists (df : Z * Z) (r c : Z) (record : LogRecord),
      read_csv (Core := full_core) "x,y" = inr df /\
      summary_n_rows (Core := full_core) tt = Some r /\
      summary_n_cols (Core := full_core) tt = Some c /\
      record = success_record "/quality-flags-from-csv" (elapsed_ms idle_world)
                 None (r, c) idle_world /\
      journal w' = journal idle_world ++ [ReadCsv "x,y"; Logged record] /\
      forall utcnow : string,
        JSONFormatter_format record utcnow !! "ok_for_model" = None /\
        JSONFormatter_format record utcnow !! "n_rows" = Some (VInt r) /\
        JSONFormatter_format record utcnow !! "n_cols" = Some (VInt c).
Proof.
  eexists _, _.
  refine ((fun Hrun => conj Hrun
             (quality_flags_from_csv_success_logged (H := full_core)
                (csv_upload "x,y") idle_world _ _ Hrun)) _).
  apply (quality_flags_from_csv_run (H := full_core) (csv_upload "x,y")
           idle_world (3%Z, 2%Z)).
  - apply csv_accepted.
  - reflexivity.
  - reflexivity.
Defined.

Lemma unreadable_csv_rejected_with_parser_message_witness :
  client_error (quality_from_csv (H := full_core) (csv_upload "") idle_world)
    idle_world
    "Не удалось прочитать CSV: No columns to parse from file"
    [ReadCsv ""; Logged (error_record "/quality-from-csv" (elapsed_ms idle_world) idle_world)] /\
  client_error (quality_flags_from_csv (H := full_core) (csv_upload "") idle_world)
    idle_world
    "Не удалось прочитать CSV: No columns to parse from file"
    [ReadCsv ""; Logged (error_record "/quality-flags-from-csv" (elapsed_ms idle_world) idle_world)].
Proof.
  apply (unreadable_csv_rejected_with_parser_message (H := full_core)
           (csv_upload "") idle_world "No columns to parse from file").
  - apply csv_accepted.
  - reflexivity.
Defined.

Lemma empty_rejection_iff_an_axis_is_empty_witness :
  ((quality_from_csv (H := full_core) (csv_upload "a,b") idle_world).1
     = Raise (HTTPException 400 detail_empty) <->
   0%Z = 0%Z \/ 2%Z = 0%Z) /\
  ((quality_flags_from_csv (H := full_core) (csv_upload "a,b") idle_world).1
     = Raise (HTTPException 400 detail_empty) <->
   0%Z = 0%Z \/ 2%Z = 0%Z).
Proof.
  apply (empty_rejection_iff_an_axis_is_empty (H := full_core)
           (csv_upload "a,b") idle_world (0%Z, 2%Z)).
  - apply csv_accepted.
  - reflexivity.
Defined.

Lemma quality_from_csv_unconvertible_score_witness :
  (quality_from_csv (H := noneful_core) (csv_upload "x,y") idle_world).1
    = Raise TypeError /\
  (TypeError = TypeError \/ TypeError = ValueError \/ TypeError = OverflowError) /\
  journal (quality_from_csv (H := noneful_core) (csv_upload "x,y") idle_world).2
    = journal idle_world ++ [ReadCsv "x,y"] /\
  logged (journal (quality_from_csv (H := noneful_core) (csv_upload "x,y") idle_world).2)
    = logged (journal idle_world).
Proof.
  apply (quality_from_csv_unconvertible_score (H := noneful_core)
           (csv_upload "x,y") idle_world (3%Z, 2%Z) TypeError).
  - apply csv_accepted.
  - reflexivity.
  - reflexivity.
  - reflexivity.
Defined.

Lemma quality_from_csv_nan_score_passes_witness :
  exists (resp : QualityResponse.t) (w' : world),
    quality_from_csv (H := nan_core) (csv_upload "x,y") idle_world
      = (Return resp, w') /\
    QualityResponse.quality_score resp = 1%float /\
    QualityResponse.ok_for_model resp = true /\
    QualityResponse.message resp = msg_csv_ok.
Proof.
  apply (quality_from_csv_nan_score_passes (H := nan_core)
           (csv_upload "x,y") idle_world (3%Z, 2%Z) nan).
  - apply csv_accepted.
  - reflexivity.
  - reflexivity.
  - reflexivity.
  - reflexivity.
Defined.

Lemma dispatch_tags_records_and_restores_context_witness :
  exists evs : list event,
    (dispatch "6f1c" (quality small_clean) idle_world).1
      = (quality small_clean (set_request_id "6f1c" idle_world)).1 /\
    appends idle_world (dispatch "6f1c" (quality small_clean) idle_world).2 evs /\
    accounted "/quality" (set_request_id "6f1c" idle_world)
      (dispatch "6f1c" (quality small_clean) idle_world).1 evs /\
    Forall (fun r => rec_request_id r = "6f1c") (logged evs).
Proof.
  apply (dispatch_tags_records_and_restores_context "/quality" "6f1c"
           (quality small_clean) (quality_well_behaved small_clean) idle_world).
Defined.

Lemma small_wide_more_penalised : at_least_as_penalised small_clean small_wide.
Proof.
  unfold at_least_as_penalised.
  repeat apply Forall2_cons_2; try apply Forall2_nil_2; cbn [fst snd];
    (split; [|reflexivity]); intros Htrue; try reflexivity; discriminate Htrue.
Qed.

Lemma quality_score_never_rewards_a_penalty_witness :
  exists (ra rb : QualityResponse.t) (wa' wb' : world),
    quality small_clean idle_world = (Return ra, wa') /\
    quality small_wide idle_world = (Return rb, wb') /\
    (QualityResponse.quality_score rb
       <=? QualityResponse.quality_score ra)%float = true.
Proof.
  apply (quality_score_never_rewards_a_penalty
           small_clean small_wide idle_world idle_world).
  - exact small_wide_more_penalised.
  - split; reflexivity.
  - split; reflexivity.
  - reflexivity.
Defined.

Lemma quality_ok_excludes_too_many_missing_witness :
  exists (resp : QualityResponse.t) (w' : world) (fl : gmap string bool),
    quality threshold_case idle_world = (Return resp, w') /\
    QualityResponse.flags resp = Some fl /\
    (QualityResponse.ok_for_model resp = true ->
     fl !! "too_many_missing" = Some false).
Proof.
  apply (quality_ok_excludes_too_many_missing threshold_case idle_world).
  split; reflexivity.
Defined.
